(** * remotable_python: remote execution client over an SSH transport

    A shallow embedding of [remotable_python.py]: the [SSHClient] wrapper
    (connect, close, execute, copy_folder, copy_file), the [RemotePython]
    orchestrator (open_ssh_client and the three workflows) and the script
    entry point with its [except RemotePythonException] handler.

    The paramiko transport is an external collaborator; it is taken as a
    parameter (class [Transport]).  Every call the program issues to it is
    recorded in the world, together with everything the program prints.

    Paths follow the POSIX flavour of pathlib.  The output of a remote
    command is a finite list of lines: a command that never ends is outside
    the model.  An exception raised inside the transport carries its class
    name; the transport cannot raise the script's own exception class. *)

From Stdlib Require Import String Ascii List Bool.
Import ListNotations.
Set Warnings "-register-all".
Open Scope string_scope.
Open Scope list_scope.

(** ** pathlib (POSIX flavour) *)

Module Pathlib.

(** A pure path: the root ("", "/" or "//") and the components after it. *)
Record Path := mkPath { root : string; parts : list string }.

(** [s.split(sep)] for a one-character separator. *)
Fixpoint split_on (sep : ascii) (s : string) : list string :=
  match s with
  | EmptyString => [EmptyString]
  | String c s' =>
      if Ascii.eqb c sep then EmptyString :: split_on sep s'
      else match split_on sep s' with
           | [] => [String c EmptyString]
           | h :: t => String c h :: t
           end
  end.

Fixpoint leading (sep : ascii) (s : string) : nat :=
  match s with
  | String c s' => if Ascii.eqb c sep then S (leading sep s') else 0
  | EmptyString => 0
  end.

Definition kept (x : string) : bool := negb (x =? "") && negb (x =? ".").

(** Parsing of one string segment: exactly two leading slashes are kept as
    the root "//", any other positive number collapses to "/"; empty and "."
    components are dropped, ".." is kept. *)
Definition parse (s : string) : Path :=
  {| root := match leading "/"%char s with
             | 0 => ""
             | 2 => "//"
             | _ => "/"
             end;
     parts := filter kept (split_on "/"%char s) |}.

(** [p / q]: an anchored right operand replaces the left one. *)
Definition truediv (p q : Path) : Path :=
  if root q =? "" then {| root := root p; parts := parts p ++ parts q |}
  else q.

(** [p.joinpath(seg1, seg2, ...)] *)
Definition joinpath (p : Path) (segments : list Path) : Path :=
  fold_left truediv segments p.

(** [p.name]: the final component, the empty string when there is none. *)
Definition name (p : Path) : string := last (parts p) "".

(** [p.as_posix()] (equal to [str(p)] for this flavour). *)
Definition as_posix (p : Path) : string :=
  match parts p with
  | [] => if root p =? "" then "." else root p
  | _ => root p ++ String.concat "/" (parts p)
  end.

(** The path [iterdir] yields for the directory entry called [n]. *)
Definition child (p : Path) (n : string) : Path :=
  {| root := root p; parts := parts p ++ [n] |}.

(** [p.parent]: the path without its final component. *)
Definition parent (p : Path) : Path :=
  {| root := root p; parts := removelast (parts p) |}.

(** [p] followed by further components. *)
Definition extend (p : Path) (rel : list string) : Path :=
  {| root := root p; parts := parts p ++ rel |}.

Fixpoint has_sep (sep : ascii) (s : string) : bool :=
  match s with
  | EmptyString => false
  | String c s' => Ascii.eqb c sep || has_sep sep s'
  end.

(** The name of a directory entry: not empty, not ".", no slash in it. *)
Definition component (n : string) : bool :=
  kept n && negb (has_sep "/"%char n).

(** What a local path denotes on disk. *)
Inductive entry :=
| File
| Dir (children : list (string * entry))
| Special   (* exists, but neither a regular file nor a directory *)
| Missing.  (* nothing there (also a dangling link) *)

Definition is_file (e : entry) : bool :=
  match e with File => true | _ => false end.

Definition is_dir (e : entry) : bool :=
  match e with Dir _ => true | _ => false end.

End Pathlib.
Import Pathlib.

(** ** Exceptions *)

Inductive builtin :=
| AttributeError
| AssertionError
| NotADirectoryError
| FileNotFoundError.

(** [TransportError cls] is an exception of class [cls] raised inside the
    transport library; [RemotePythonException] is the script's own class. *)
Inductive exn :=
| Builtin (b : builtin)
| TransportError (cls : string)
| RemotePythonException (msg : string).

(** ** The transport *)

Inductive call :=
| Connect (hostname username password : string)
| Close
| ExecCommand (command : string) (get_pty : bool)
| OpenSftp
| Mkdir (path : string)
| Put (localpath remotepath : string).

(** The operations the program consumes, over a state [T] of the remote
    side.  Each one returns the new state and either the class name of the
    exception it raised or its result. *)
Class Transport (T : Type) := {
  ssh_connect : string -> string -> string -> T -> (string + unit) * T;
  ssh_close : T -> (string + unit) * T;
  ssh_exec_command :
    string -> bool -> T -> (string + (list string * list string)) * T;
  ssh_open_sftp : T -> (string + unit) * T;
  sftp_mkdir : string -> T -> (string + unit) * T;
  sftp_put : string -> string -> T -> (string + unit) * T
}.

(** The [SSHClient] object: its three constructor fields and whether the
    attribute [ssh_client] has been set on it. *)
Record SSHClient := mkSSHClient {
  server : string;
  username : string;
  password : string;
  ssh_client : bool
}.

Section Core.

Context {T : Type} {transport : Transport T}.

(** The local disk, read-only during a run. *)
Variable disk : Path -> entry.

(** The world: the remote side, the calls issued to the transport (oldest
    first), the text printed (one item per [print]), the [SSHClient] object
    in use, and two ghost counters: [SSHClient] objects constructed and
    entries into [SSHClient.close]. *)
Record world := mkWorld {
  remote : T;
  calls : list call;
  console : list string;
  self : SSHClient;
  constructed : nat;
  close_invoked : nat
}.

(** State and exceptions: an exception keeps the effects made so far. *)
Definition M (A : Type) : Type := world -> (exn + A) * world.

Definition ret {A} (a : A) : M A := fun w => (inr a, w).

Definition raise {A} (e : exn) : M A := fun w => (inl e, w).

Definition bind {A B} (m : M A) (k : A -> M B) : M B :=
  fun w => match m w with
           | (inl e, w') => (inl e, w')
           | (inr a, w') => k a w'
           end.

(** [try: body finally: fin]; an exception of [fin] replaces the outcome. *)
Definition try_finally {A} (body : M A) (fin : M unit) : M A :=
  fun w => match body w with
           | (r, w1) => match fin w1 with
                        | (inl e, w2) => (inl e, w2)
                        | (inr _, w2) => (r, w2)
                        end
           end.

Notation "x <- m ;; k" := (bind m (fun x => k))
  (at level 61, m at next level, right associativity).
Notation "m ;; k" := (bind m (fun _ => k))
  (at level 61, right associativity).

(** [print(s, end=e)] *)
Definition print (s e : string) : M unit :=
  fun w => (inr tt, mkWorld (remote w) (calls w)
                            (console w ++ [(s ++ e)%string])
                            (self w) (constructed w) (close_invoked w)).

Definition newline : string := String (ascii_of_nat 10) EmptyString.

(** One call to the transport: recorded, then performed. *)
Definition invoke {A} (c : call) (op : T -> (string + A) * T) : M A :=
  fun w => match op (remote w) with
           | (r, t') =>
               (match r with
                | inl cls => inl (TransportError cls)
                | inr a => inr a
                end,
                mkWorld t' (calls w ++ [c]) (console w)
                        (self w) (constructed w) (close_invoked w))
           end.

Definition set_self (o : SSHClient) : M unit :=
  fun w => (inr tt, mkWorld (remote w) (calls w) (console w) o
                            (constructed w) (close_invoked w)).

Definition get_self : M SSHClient := fun w => (inr (self w), w).

(** *** class SSHClient *)

(** [SSHClient(server, username, password)] *)
Definition SSHClient_init (server username password : string) : M unit :=
  fun w => (inr tt, mkWorld (remote w) (calls w) (console w)
                            (mkSSHClient server username password false)
                            (S (constructed w)) (close_invoked w)).

Definition connect : M unit :=
  o <- get_self ;;
  invoke (Connect (server o) (username o) (password o))
         (ssh_connect (server o) (username o) (password o)) ;;
  set_self (mkSSHClient (server o) (username o) (password o) true).

(** The property [_ssh_client]: [getattr(self, 'ssh_client')]. *)
Definition _ssh_client : M unit :=
  o <- get_self ;;
  if ssh_client o then ret tt else raise (Builtin AttributeError).

Definition enter_close : M unit :=
  fun w => (inr tt, mkWorld (remote w) (calls w) (console w) (self w)
                            (constructed w) (S (close_invoked w))).

Definition close : M unit :=
  enter_close ;;
  _ssh_client ;;
  invoke Close ssh_close.

(** [for line in iter(stdout.readline, ""): print(line, end='')];
    [readline] gives "" once the lines are exhausted. *)
Fixpoint print_lines (stdout : list string) : M unit :=
  match stdout with
  | [] => ret tt
  | line :: rest => if line =? "" then ret tt
                    else print line "" ;; print_lines rest
  end.

Definition execute (command : list string) (as_root print_continuously : bool)
  : M unit :=
  let command := if as_root then ["sudo -E"] ++ command else command in
  _ssh_client ;;
  out <- invoke (ExecCommand (String.concat " " command) print_continuously)
                (ssh_exec_command (String.concat " " command)
                                  print_continuously) ;;
  print_lines (fst out) ;;
  print (String.concat "" (snd out)) newline.

(** [node] is what [local_folder] denotes on the local disk; [iterdir]
    yields the children in the order they are listed in. *)
Fixpoint copy_folder (node : entry) (local_folder remote_destination : Path)
  (sftp : option unit) {struct node} : M unit :=
  sftp <- match sftp with
          | Some ch => ret ch
          | None => _ssh_client ;; invoke OpenSftp ssh_open_sftp
          end ;;
  let target := joinpath remote_destination [parse (name local_folder)] in
  invoke (Mkdir (as_posix target)) (sftp_mkdir (as_posix target)) ;;
  match node with
  | Dir children =>
      (fix iterate (l : list (string * entry)) : M unit :=
         match l with
         | [] => ret tt
         | (n, l_node) :: rest =>
             let l_dir := child local_folder n in
             match l_node with
             | File =>
                 let dst := joinpath remote_destination
                              [parse (name local_folder); parse (name l_dir)] in
                 invoke (Put (as_posix l_dir) (as_posix dst))
                        (sftp_put (as_posix l_dir) (as_posix dst))
             | Dir _ =>
                 copy_folder l_node l_dir
                   (joinpath remote_destination [parse (name local_folder)])
                   (Some sftp)
             | _ => ret tt
             end ;;
             iterate rest
         end) children
  | Missing => raise (Builtin FileNotFoundError)
  | _ => raise (Builtin NotADirectoryError)
  end.

(** The loop of [copy_folder] as a function of its own, over the listing
    of [local_folder]. *)
Definition copy_children (local_folder remote_destination : Path)
  (sftp : unit) : list (string * entry) -> M unit :=
  fix iterate (l : list (string * entry)) : M unit :=
    match l with
    | [] => ret tt
    | (n, l_node) :: rest =>
        let l_dir := child local_folder n in
        match l_node with
        | File =>
            let dst := joinpath remote_destination
                         [parse (name local_folder); parse (name l_dir)] in
            invoke (Put (as_posix l_dir) (as_posix dst))
                   (sftp_put (as_posix l_dir) (as_posix dst))
        | Dir _ =>
            copy_folder l_node l_dir
              (joinpath remote_destination [parse (name local_folder)])
              (Some sftp)
        | _ => ret tt
        end ;;
        iterate rest
    end.

Definition copy_file (local_file remote_destination : Path) : M unit :=
  _ssh_client ;;
  invoke OpenSftp ssh_open_sftp ;;
  let dst := joinpath remote_destination [parse (name local_file)] in
  invoke (Put (as_posix local_file) (as_posix dst))
         (sftp_put (as_posix local_file) (as_posix dst)).

(** *** class RemotePython *)

Record RemotePython := mkRemotePython {
  rp_server : string;
  rp_user : string;
  rp_password : string
}.

(** [with self.open_ssh_client() as ssh_client: body]: the generator
    constructs the client, connects inside [try] and closes in [finally];
    the body runs at the [yield]. *)
Definition open_ssh_client {A} (this : RemotePython) (body : M A) : M A :=
  SSHClient_init (rp_server this) (rp_user this) (rp_password this) ;;
  try_finally (connect ;; body) close.

Definition create_python_environment (this : RemotePython)
  (path : Path) (env_name : string) : M unit :=
  open_ssh_client this
    (execute ["python3"; "-m"; "venv";
              as_posix (joinpath path [parse env_name])] false false).

Definition execute_python_project (this : RemotePython)
  (project file remote_destination : Path) (as_root : bool) : M unit :=
  let remote_project_folder :=
    truediv remote_destination (parse (name project)) in
  open_ssh_client this
    (execute [("rm -rf " ++ as_posix remote_project_folder)%string]
             as_root false ;;
     copy_folder (disk project) project remote_destination None ;;
     execute ["python3"; as_posix (joinpath remote_project_folder [file])]
             as_root true).

Definition execute_python_file (this : RemotePython)
  (local_file remote_destination : Path) (as_root : bool) : M unit :=
  (if is_file (disk local_file) then ret tt
   else raise (Builtin AssertionError)) ;;
  let file_to_execute :=
    as_posix (joinpath remote_destination [parse (name local_file)]) in
  print (as_posix remote_destination) newline ;;
  open_ssh_client this
    (execute [("rm -f " ++ file_to_execute)%string] false false ;;
     copy_file local_file remote_destination ;;
     execute ["python3"; file_to_execute] as_root true).

(** *** The command line, after parsing *)

Inductive Action :=
| env (env_folder : Path) (name : string)
| execute_project (remote_destination : Path) (as_root : bool)
                  (project execute_file : Path)
| execute_file (remote_destination : Path) (as_root : bool)
               (execute_file : Path).

Record Namespace := mkNamespace {
  arg_server : string;
  arg_user : string;
  arg_password : string;
  action : Action
}.

(** The handlers [create_python_env], [execute_python_project] and
    [execute_python_file] of the [actions] table only unpack the namespace
    for the method of the same purpose; the parser admits no other action. *)
Definition main (arguments : Namespace) : M unit :=
  let remote_python := mkRemotePython (arg_server arguments)
                         (arg_user arguments) (arg_password arguments) in
  match action arguments with
  | env env_folder name =>
      create_python_environment remote_python env_folder name
  | execute_project remote_destination as_root project file =>
      execute_python_project remote_python project file remote_destination
                             as_root
  | execute_file remote_destination as_root file =>
      execute_python_file remote_python file remote_destination as_root
  end.

(** How the process ends: [main] returned, the [except
    RemotePythonException] handler printed the message and called
    [exit(1)], or another exception left the script with a traceback. *)
Inductive outcome :=
| Returned
| Handled (msg : string)
| Traceback (e : exn).

Definition script (arguments : Namespace) (w : world) : outcome * world :=
  match main arguments w with
  | (inr _, w') => (Returned, w')
  | (inl (RemotePythonException msg), w') =>
      (Handled msg, snd (print msg newline w'))
  | (inl e, w') => (Traceback e, w')
  end.

(** The world a run starts in: nothing called, nothing printed, no client
    object yet. *)
Definition boot (t : T) : world :=
  mkWorld t [] [] (mkSSHClient "" "" "" false) 0 0.

End Core.

Arguments world T : clear implicits.
Arguments M T A : clear implicits.

(** ** A fake transport

    It keeps the remote paths that exist and refuses [mkdir] on one of them
    with [OSError], as an SFTP server does; [refuse] injects faults on chosen
    calls; every command prints the same two streams.  A [strict] one also
    refuses commands and file channels while no connection is open, the way
    the real client does once its transport is gone; a lenient one takes
    them. *)

Module Fake.

Record remote_state := mkRemote {
  existing : list string;
  refuse : call -> bool;
  streams : list string * list string;
  strict : bool;
  connected : bool
}.

Definition needs_connection (c : call) : bool :=
  match c with Connect _ _ _ | Close => false | _ => true end.

Definition guarded {A} (c : call) (a : A) (f : remote_state -> remote_state)
  (t : remote_state) : (string + A) * remote_state :=
  if refuse t c then (inl "SSHException", t)
  else if strict t && negb (connected t) && needs_connection c
       then (inl "AttributeError", t)
       else (inr a, f t).

Definition add (p : string) (t : remote_state) : remote_state :=
  mkRemote (p :: existing t) (refuse t) (streams t) (strict t) (connected t).

Definition plug (b : bool) (t : remote_state) : remote_state :=
  mkRemote (existing t) (refuse t) (streams t) (strict t) b.

#[global] Instance fake : Transport remote_state := {
  ssh_connect h u p := guarded (Connect h u p) tt (plug true);
  ssh_close := guarded Close tt (plug false);
  ssh_exec_command c pty t :=
    guarded (ExecCommand c pty) (streams t) (fun t => t) t;
  ssh_open_sftp := guarded OpenSftp tt (fun t => t);
  sftp_mkdir p t :=
    if existsb (String.eqb p) (existing t) then (inl "OSError", t)
    else guarded (Mkdir p) tt (add p) t;
  sftp_put l r := guarded (Put l r) tt (add r)
}.

(** The path [p] exists on the remote side. *)
Definition holds (t : remote_state) (p : string) : bool :=
  existsb (String.eqb p) (existing t).

(** A lenient remote side on which [paths] exist, nothing is refused and
    commands print nothing. *)
Definition quiet (paths : list string) : remote_state :=
  mkRemote paths (fun _ => false) ([], []) false false.

(** The same, connected. *)
Definition online (paths : list string) : remote_state :=
  plug true (quiet paths).

(** A strict remote side with nothing on it. *)
Definition paramiko_like : remote_state :=
  mkRemote [] (fun _ => false) ([], []) true false.

End Fake.

(** ** Reference definitions

    What the specification speaks of, stated without the code: the
    invocation string of a command, the lines a stream shows, the nodes of a
    tree and the call each of them stands for. *)

(** Every token preceded by one space. *)
Definition spaced (tokens : list string) : string :=
  String.concat "" (map (fun t => " " ++ t)%string tokens).

(** The tokens separated by single spaces, after the elevation prefix when
    the command is elevated. *)
Definition invocation (elevated : bool) (tokens : list string) : string :=
  if elevated then ("sudo -E" ++ spaced tokens)%string
  else match tokens with
       | [] => ""
       | t :: ts => (t ++ spaced ts)%string
       end.

(** The elevation prefix with its separating space, or nothing. *)
Definition elevation (elevated : bool) : string :=
  if elevated then "sudo -E " else "".

(** The lines of a stream up to its end; an empty read is the end. *)
Fixpoint shown (stream : list string) : list string :=
  match stream with
  | [] => []
  | line :: rest => if line =? "" then [] else line :: shown rest
  end.

(** Every name in the tree is the name of a directory entry. *)
Fixpoint well_named (e : entry) : bool :=
  match e with
  | Dir children =>
      forallb (fun nc => component (fst nc) && well_named (snd nc)) children
  | _ => true
  end.

(** The nodes of a tree, parents first, each with its path relative to the
    parent of the root; [rel] is that path for the root itself. *)
Fixpoint nodes (rel : list string) (e : entry)
  : list (list string * entry) :=
  (rel, e) ::
  match e with
  | Dir children =>
      flat_map (fun nc => nodes (rel ++ [fst nc]) (snd nc)) children
  | _ => []
  end.

(** How many nodes of a tree satisfy [k]. *)
Fixpoint count_nodes (k : entry -> bool) (e : entry) : nat :=
  (if k e then 1 else 0) +
  match e with
  | Dir children => list_sum (map (fun nc => count_nodes k (snd nc)) children)
  | _ => 0
  end.

(** The call a node stands for when the tree under [base] is mirrored onto
    [destination]: a directory is created, a regular file is copied, both at
    the node's relative path under [destination]; anything else is skipped. *)
Definition mirror_call (base destination : Path)
  (node : list string * entry) : list call :=
  match snd node with
  | Dir _ => [Mkdir (as_posix (extend destination (fst node)))]
  | File => [Put (as_posix (extend base (fst node)))
                 (as_posix (extend destination (fst node)))]
  | _ => []
  end.

Definition mirror (base destination : Path) (rel : list string) (e : entry)
  : list call :=
  flat_map (mirror_call base destination) (nodes rel e).

Definition is_exec (c : call) : bool :=
  match c with ExecCommand _ _ => true | _ => false end.

Definition is_sftp (c : call) : bool :=
  match c with OpenSftp | Mkdir _ | Put _ _ => true | _ => false end.

Definition is_mkdir (c : call) : bool :=
  match c with Mkdir _ => true | _ => false end.

Definition is_put (c : call) : bool :=
  match c with Put _ _ => true | _ => false end.

Definition is_session (c : call) : bool :=
  match c with Connect _ _ _ | Close => true | _ => false end.

Definition domain_error {A} (r : exn + A) : bool :=
  match r with inl (RemotePythonException _) => true | _ => false end.

Definition raised {E A} (r : E + A) : bool :=
  match r with inl _ => true | inr _ => false end.

Section Reference.

Context {T : Type} {transport : Transport T}.

(** The world after [cs] were issued and [out] was printed, the remote side
    being [t']. *)
Definition advance (t' : T) (cs : list call) (out : list string)
  (w : world T) : world T :=
  mkWorld t' (calls w ++ cs) (console w ++ out)
          (self w) (constructed w) (close_invoked w).

(** The world once [this] has constructed a client and connected it, the
    remote side being [t1]. *)
Definition opened (this : RemotePython) (t1 : T) (w : world T) : world T :=
  mkWorld t1
    (calls w ++ [Connect (rp_server this) (rp_user this) (rp_password this)])
    (console w)
    (mkSSHClient (rp_server this) (rp_user this) (rp_password this) true)
    (S (constructed w)) (close_invoked w).

(** The world once the client of [w] went through [close]. *)
Definition closed (w : world T) : world T :=
  mkWorld (snd (ssh_close (remote w))) (calls w ++ [Close]) (console w)
          (self w) (constructed w) (S (close_invoked w)).

(** The world once [this] has constructed a client whose connection was
    refused, and [close] was entered on it. *)
Definition refused (this : RemotePython) (t1 : T) (w : world T) : world T :=
  mkWorld t1
    (calls w ++ [Connect (rp_server this) (rp_user this) (rp_password this)])
    (console w)
    (mkSSHClient (rp_server this) (rp_user this) (rp_password this) false)
    (S (constructed w)) (S (close_invoked w)).

(** One client constructed, and [close] entered once on it. *)
Definition one_session_closed (w : world T) : Prop :=
  constructed w = 1 /\ close_invoked w = 1.

Definition handled (o : outcome) : bool :=
  match o with Handled _ => true | _ => false end.

(** The assertion a workflow makes before it opens its session. *)
Definition precondition (disk : Path -> entry) (arguments : Namespace)
  : bool :=
  match action arguments with
  | execute_file _ _ file => is_file (disk file)
  | _ => true
  end.

Definition connect_call (arguments : Namespace) : call :=
  Connect (arg_server arguments) (arg_user arguments)
          (arg_password arguments).

(** One call performed on the remote side, its result dropped. *)
Definition perform (c : call) (t : T) : (string + unit) * T :=
  match c with
  | Connect h u p => ssh_connect h u p t
  | Close => ssh_close t
  | ExecCommand cmd pty =>
      match ssh_exec_command cmd pty t with
      | (inl cls, t') => (inl cls, t')
      | (inr _, t') => (inr tt, t')
      end
  | OpenSftp => ssh_open_sftp t
  | Mkdir p => sftp_mkdir p t
  | Put l r => sftp_put l r t
  end.

(** The remote side after a sequence of calls. *)
Fixpoint after (t : T) (cs : list call) : T :=
  match cs with
  | [] => t
  | c :: cs' => after (snd (perform c t)) cs'
  end.

(** The remote side raises on none of the calls, performed in turn. *)
Fixpoint accepts (t : T) (cs : list call) : bool :=
  match cs with
  | [] => true
  | c :: cs' => match perform c t with
                | (inl _, _) => false
                | (inr _, t') => accepts t' cs'
                end
  end.

(** [m] leaves the client object and the ghost counters alone and only
    adds calls that satisfy [P]. *)
Definition appends {A} (P : call -> bool) (m : M T A) : Prop :=
  forall w,
    self (snd (m w)) = self w /\
    constructed (snd (m w)) = constructed w /\
    close_invoked (snd (m w)) = close_invoked w /\
    exists cs, calls (snd (m w)) = calls w ++ cs /\ forallb P cs = true.

(** [m] never raises the script's own exception class. *)
Definition clean {A} (m : M T A) : Prop :=
  forall w, domain_error (fst (m w)) = false.

End Reference.

(** ** A concrete setting for examples *)

Module Demo.

(** The listing of the project directory [/local/App]. *)
Definition app : list (string * entry) :=
  [("run.py", File);
   ("pkg", Dir [("a.py", File); ("empty", Dir [])]);
   ("sock", Special)].

Definition disk (p : Path) : entry :=
  if as_posix p =? "/local/App" then Dir app
  else if as_posix p =? "/local/task.py" then File
  else Missing.

Definition pi : RemotePython := mkRemotePython "host" "pi" "secret".

(** A client connected to the fake remote side [t]. *)
Definition connected (t : Fake.remote_state) : world Fake.remote_state :=
  snd (bind (SSHClient_init "host" "pi" "secret") (fun _ => connect) (boot t)).

(** A client constructed and never connected. *)
Definition fresh (t : Fake.remote_state) : world Fake.remote_state :=
  snd (SSHClient_init "host" "pi" "secret" (boot t)).

(** A remote side whose commands print two lines and nothing on the error
    stream. *)
Definition chatty : Fake.remote_state :=
  Fake.mkRemote [] (fun _ => false)
    (["building" ++ newline; "done" ++ newline]%string, []) false true.

(** A client connected, then closed. *)
Definition closed_again (t : Fake.remote_state) : world Fake.remote_state :=
  snd (bind (SSHClient_init "host" "pi" "secret")
         (fun _ => bind connect (fun _ => close)) (boot t)).

(** A remote side that refuses the calls [bad] accepts. *)
Definition faulty (bad : call -> bool) : Fake.remote_state :=
  Fake.mkRemote [] bad ([], []) false false.

(** The calls that create [/srv/App/pkg]. *)
Definition creates_pkg (c : call) : bool :=
  match c with
  | Mkdir p => p =? "/srv/App/pkg"
  | _ => false
  end.

End Demo.


(** ** Calls against a remote side that may refuse *)

Section Conduct.

Context {T : Type} {transport : Transport T}.

(** The calls of [cs] that reach the remote side when they are issued in
    turn and the first refusal stops the sequence: all of them up to and
    including the first one refused. *)
Fixpoint attempted (t : T) (cs : list call) : list call :=
  match cs with
  | [] => []
  | c :: cs' =>
      c :: match perform c t with
           | (inl _, _) => []
           | (inr _, t') => attempted t' cs'
           end
  end.

(** The class of the exception of the first refusal, if any. *)
Fixpoint refusal (t : T) (cs : list call) : option string :=
  match cs with
  | [] => None
  | c :: cs' =>
      match perform c t with
      | (inl cls, _) => Some cls
      | (inr _, t') => refusal t' cs'
      end
  end.

Definition result_of (r : option string) : exn + unit :=
  match r with
  | None => inr tt
  | Some cls => inl (TransportError cls)
  end.

(** On an attached client, [m] issues the calls [cs] in turn, stops at the
    first one the remote side refuses and raises its exception, returns
    normally when none is refused, and leaves the client object as it is. *)
Definition performs (m : M T unit) (cs : list call) : Prop :=
  forall w,
    ssh_client (self w) = true ->
    fst (m w) = result_of (refusal (remote w) cs) /\
    calls (snd (m w)) = calls w ++ attempted (remote w) cs /\
    remote (snd (m w)) = after (remote w) (attempted (remote w) cs) /\
    self (snd (m w)) = self w.

(** The outcome of a session scope: the exception of [close] when the
    remote side refuses it, the outcome of the body otherwise. *)
Definition scope_result (t : T) (body : exn + unit) : exn + unit :=
  match fst (ssh_close t) with
  | inl cls => inl (TransportError cls)
  | inr _ => body
  end.

End Conduct.
(** ** Paths *)

Lemma split_on_plain (sep : ascii) (s : string) :
  has_sep sep s = false -> split_on sep s = [s].
Proof.
  induction s as [|c s IH]; simpl; [reflexivity|].
  destruct (Ascii.eqb c sep); simpl; [discriminate|].
  intros H. now rewrite (IH H).
Qed.

Lemma leading_plain (sep : ascii) (s : string) :
  has_sep sep s = false -> leading sep s = 0.
Proof.
  destruct s as [|c s]; simpl; [reflexivity|].
  now destruct (Ascii.eqb c sep).
Qed.

Lemma parse_component (n : string) :
  component n = true -> parse n = mkPath "" [n].
Proof.
  unfold component, parse. intros H.
  apply andb_true_iff in H as [Hk Hs].
  apply negb_true_iff in Hs.
  rewrite (leading_plain _ _ Hs), (split_on_plain _ _ Hs).
  simpl. now rewrite Hk.
Qed.

Lemma truediv_component (p : Path) (n : string) :
  component n = true -> truediv p (parse n) = extend p [n].
Proof. intros H. now rewrite (parse_component n H). Qed.

Lemma name_extend (p : Path) (pre : list string) (n : string) :
  name (extend p (pre ++ [n])) = n.
Proof. unfold name, extend. simpl. now rewrite app_assoc, last_last. Qed.

Lemma name_child (p : Path) (n : string) : name (child p n) = n.
Proof. unfold name, child. simpl. now rewrite last_last. Qed.

Lemma extend_nil (p : Path) : extend p [] = p.
Proof. destruct p. unfold extend. simpl. now rewrite app_nil_r. Qed.

Lemma extend_extend (p : Path) (a b : list string) :
  extend (extend p a) b = extend p (a ++ b).
Proof. unfold extend. simpl. now rewrite app_assoc. Qed.

Lemma child_extend (p : Path) (rel : list string) (n : string) :
  child (extend p rel) n = extend p (rel ++ [n]).
Proof. unfold child, extend. simpl. now rewrite app_assoc. Qed.

Lemma component_nonempty (n : string) : component n = true -> n <> "".
Proof. intros H ->. discriminate H. Qed.

Lemma parent_name (p : Path) :
  name p <> "" -> extend (parent p) [name p] = p.
Proof.
  destruct p as [r ps]. unfold name, parent, extend. simpl. intros H.
  destruct ps as [|x ps]; [now elim H|].
  f_equal. symmetry. apply app_removelast_last. discriminate.
Qed.

(** ** Joining tokens *)

Lemma append_nil_r (s : string) : (s ++ "")%string = s.
Proof. induction s; simpl; congruence. Qed.

Lemma concat_empty_cons (x : string) (xs : list string) :
  String.concat "" (x :: xs) = (x ++ String.concat "" xs)%string.
Proof. destruct xs; simpl; [now rewrite append_nil_r | reflexivity]. Qed.

Lemma concat_space_cons (t : string) (ts : list string) :
  String.concat " " (t :: ts) = (t ++ spaced ts)%string.
Proof.
  revert t. induction ts as [|t' ts IH]; intros t.
  - simpl. now rewrite append_nil_r.
  - change (String.concat " " (t :: t' :: ts))
      with (t ++ " " ++ String.concat " " (t' :: ts))%string.
    rewrite IH. unfold spaced at 2. simpl map. rewrite concat_empty_cons.
    reflexivity.
Qed.

Lemma join_invocation (as_root : bool) (command : list string) :
  String.concat " " (if as_root then ["sudo -E"] ++ command else command)
  = invocation as_root command.
Proof.
  destruct as_root; simpl app.
  - apply concat_space_cons.
  - destruct command as [|t ts]; [reflexivity | apply concat_space_cons].
Qed.

Lemma invocation_one (as_root : bool) (x : string) :
  invocation as_root [x] = (elevation as_root ++ x)%string.
Proof. destruct as_root; simpl; [reflexivity | apply append_nil_r]. Qed.

Lemma invocation_two (as_root : bool) (x y : string) :
  invocation as_root [x; y] = (elevation as_root ++ x ++ " " ++ y)%string.
Proof.
  destruct as_root; reflexivity.
Qed.

(** ** Trees and the calls that mirror them *)

Lemma entry_induction (P : entry -> Prop) :
  P File -> P Special -> P Missing ->
  (forall children,
      Forall (fun nc => P (snd nc)) children -> P (Dir children)) ->
  forall e, P e.
Proof.
  intros HF HS HM HD. fix IH 1.
  intros [|children| |]; [exact HF | | exact HS | exact HM].
  apply HD. induction children as [|[n c] rest IHrest]; constructor.
  - apply IH.
  - exact IHrest.
Qed.


Lemma flat_map_flat_map {A B C} (f : B -> list C) (g : A -> list B)
  (l : list A) :
  flat_map f (flat_map g l) = flat_map (fun x => flat_map f (g x)) l.
Proof.
  induction l as [|x l IH]; simpl; [reflexivity|].
  now rewrite flat_map_app, IH.
Qed.

Lemma mirror_Dir (base destination : Path) (rel : list string)
  (children : list (string * entry)) :
  mirror base destination rel (Dir children)
  = Mkdir (as_posix (extend destination rel))
    :: flat_map (fun nc => mirror base destination (rel ++ [fst nc]) (snd nc))
         children.
Proof.
  unfold mirror. simpl. f_equal. apply flat_map_flat_map.
Qed.

Lemma mirror_File (base destination : Path) (rel : list string) :
  mirror base destination rel File
  = [Put (as_posix (extend base rel)) (as_posix (extend destination rel))].
Proof. reflexivity. Qed.

Lemma filter_length_app {A} (k : A -> bool) (a b : list A) :
  List.length (filter k (a ++ b))
  = List.length (filter k a) + List.length (filter k b).
Proof. now rewrite filter_app, length_app. Qed.

Lemma mirror_mkdirs (base destination : Path) (e : entry) :
  forall rel,
    List.length (filter is_mkdir (mirror base destination rel e))
    = count_nodes is_dir e.
Proof.
  induction e as [| | |children IH] using entry_induction; intros rel;
    try reflexivity.
  rewrite mirror_Dir. simpl. f_equal.
  induction IH as [|[n c] rest Hc _ IHrest]; simpl; [reflexivity|].
  now rewrite filter_length_app, Hc, IHrest.
Qed.

Lemma mirror_puts (base destination : Path) (e : entry) :
  forall rel,
    List.length (filter is_put (mirror base destination rel e))
    = count_nodes is_file e.
Proof.
  induction e as [| | |children IH] using entry_induction; intros rel;
    try reflexivity.
  rewrite mirror_Dir. simpl.
  induction IH as [|[n c] rest Hc _ IHrest]; simpl; [reflexivity|].
  now rewrite filter_length_app, Hc, IHrest.
Qed.

(** ** The monad and the client's methods *)

Section Facts.

Context {T : Type} {transport : Transport T}.
Variable disk : Path -> entry.

Lemma advance_nil (w : world T) : advance (remote w) [] [] w = w.
Proof. destruct w. unfold advance. simpl. now rewrite !app_nil_r. Qed.

Lemma advance_advance t1 t2 cs1 cs2 o1 o2 (w : world T) :
  advance t2 cs2 o2 (advance t1 cs1 o1 w)
  = advance t2 (cs1 ++ cs2) (o1 ++ o2) w.
Proof. unfold advance. simpl. now rewrite !app_assoc. Qed.

Lemma print_run (s e : string) (w : world T) :
  print s e w = (inr tt, advance (remote w) [] [(s ++ e)%string] w).
Proof. unfold print, advance. now rewrite app_nil_r. Qed.

Lemma invoke_run {A} (c : call) (op : T -> (string + A) * T) (w : world T) :
  invoke c op w
  = (match fst (op (remote w)) with
     | inl cls => inl (TransportError cls)
     | inr a => inr a
     end, advance (snd (op (remote w))) [c] [] w).
Proof.
  unfold invoke, advance. destruct (op (remote w)) as [r t'].
  simpl. now rewrite app_nil_r.
Qed.

Lemma print_lines_run (stdout : list string) (w : world T) :
  print_lines stdout w = (inr tt, advance (remote w) [] (shown stdout) w).
Proof.
  revert w. induction stdout as [|line rest IH]; intros w; simpl.
  - unfold ret. now rewrite advance_nil.
  - destruct (line =? ""); [unfold ret; now rewrite advance_nil|].
    unfold bind. rewrite print_run, IH, advance_advance.
    simpl. now rewrite append_nil_r.
Qed.

Lemma _ssh_client_set (w : world T) :
  ssh_client (self w) = true -> _ssh_client w = (inr tt, w).
Proof. unfold _ssh_client, bind, get_self. now intros ->. Qed.


(** What [execute] does on a client whose handle is attached. *)
Lemma execute_run (command : list string) (as_root pty : bool) (w : world T) :
  ssh_client (self w) = true ->
  execute command as_root pty w
  = let c := ExecCommand (invocation as_root command) pty in
    match ssh_exec_command (invocation as_root command) pty (remote w) with
    | (inl cls, t') => (inl (TransportError cls), advance t' [c] [] w)
    | (inr (out, err), t') =>
        (inr tt, advance t' [c]
                   (shown out ++ [(String.concat "" err ++ newline)%string]) w)
    end.
Proof.
  intros Hs. unfold execute. rewrite join_invocation.
  unfold bind at 1. rewrite (_ssh_client_set w Hs).
  unfold bind at 1. rewrite invoke_run.
  destruct (ssh_exec_command _ _ (remote w)) as [[cls|[out err]] t']; simpl.
  - reflexivity.
  - unfold bind. rewrite print_lines_run, print_run, !advance_advance.
    reflexivity.
Qed.


Lemma copy_folder_eq (node : entry) (local_folder remote_destination : Path)
  (sftp : option unit) :
  copy_folder node local_folder remote_destination sftp
  = bind (match sftp with
          | Some ch => ret ch
          | None => bind _ssh_client (fun _ => invoke OpenSftp ssh_open_sftp)
          end)
      (fun sftp =>
         let target :=
           joinpath remote_destination [parse (name local_folder)] in
         bind (invoke (Mkdir (as_posix target)) (sftp_mkdir (as_posix target)))
           (fun _ =>
              match node with
              | Dir children =>
                  copy_children local_folder remote_destination sftp children
              | Missing => raise (Builtin FileNotFoundError)
              | _ => raise (Builtin NotADirectoryError)
              end)).
Proof.
  destruct node as [|children| |]; reflexivity.
Qed.

(** *** Frames: which calls a method can add *)

Lemma appends_ret {A} P (a : A) : appends P (@ret T A a).
Proof.
  intros w. simpl. repeat split. exists []. now rewrite app_nil_r.
Qed.

Lemma appends_raise {A} P (e : exn) : appends P (@raise T A e).
Proof.
  intros w. simpl. repeat split. exists []. now rewrite app_nil_r.
Qed.

Lemma appends_bind {A B} P (m : M T A) (k : A -> M T B) :
  appends P m -> (forall a, appends P (k a)) -> appends P (bind m k).
Proof.
  intros Hm Hk w. unfold bind. specialize (Hm w).
  destruct (m w) as [[e|a] w1]; simpl in *; [exact Hm|].
  destruct Hm as (Hs & Hc & Hi & cs & Hcs & HP).
  destruct (Hk a w1) as (Hs' & Hc' & Hi' & cs' & Hcs' & HP').
  repeat split; try congruence.
  exists (cs ++ cs'). rewrite Hcs', Hcs, app_assoc, forallb_app, HP, HP'.
  now split.
Qed.

Lemma appends_invoke {A} (P : call -> bool) (c : call)
  (op : T -> (string + A) * T) :
  P c = true -> appends P (invoke c op).
Proof.
  intros HP w. rewrite invoke_run. simpl. repeat split.
  exists [c]. simpl. now rewrite HP.
Qed.

Lemma appends_print P (s e : string) : appends P (@print T s e).
Proof.
  intros w. simpl. repeat split. exists []. now rewrite app_nil_r.
Qed.

Lemma appends__ssh_client P : appends P (@_ssh_client T).
Proof.
  intros w. unfold _ssh_client, bind, get_self.
  destruct (ssh_client (self w)); simpl; repeat split;
    exists []; now rewrite app_nil_r.
Qed.

Lemma appends_weaken {A} (P Q : call -> bool) (m : M T A) :
  (forall c, P c = true -> Q c = true) -> appends P m -> appends Q m.
Proof.
  intros HPQ Hm w. destruct (Hm w) as (Hs & Hc & Hi & cs & Hcs & HP).
  repeat split; trivial. exists cs. split; [exact Hcs|].
  rewrite forallb_forall in *. auto.
Qed.

Lemma appends_print_lines P (stdout : list string) :
  appends P (@print_lines T stdout).
Proof.
  induction stdout as [|line rest IH]; simpl; [apply appends_ret|].
  destruct (line =? ""); [apply appends_ret|].
  apply appends_bind; [apply appends_print | intros _; exact IH].
Qed.

Lemma appends_execute (command : list string) (as_root pty : bool) :
  appends is_exec (execute command as_root pty).
Proof.
  unfold execute.
  apply appends_bind; [apply appends__ssh_client | intros _].
  apply appends_bind; [now apply appends_invoke | intros out].
  apply appends_bind; [apply appends_print_lines | intros _].
  apply appends_print.
Qed.

Lemma appends_copy_folder (node : entry) :
  forall local_folder remote_destination sftp,
    appends is_sftp (copy_folder node local_folder remote_destination sftp).
Proof.
  induction node as [| | |children IH] using entry_induction;
    intros local_folder remote_destination sftp; rewrite copy_folder_eq;
    (apply appends_bind;
     [destruct sftp;
      [apply appends_ret
      |apply appends_bind;
       [apply appends__ssh_client | intros _; now apply appends_invoke]]
     |intros ch; cbv zeta;
      apply appends_bind; [now apply appends_invoke | intros _]]);
    try apply appends_raise.
  induction IH as [|[n c] rest Hc _ IHrest]; simpl; [apply appends_ret|].
  apply appends_bind; [|intros _; exact IHrest].
  destruct c; try apply appends_ret.
  - now apply appends_invoke.
  - apply Hc.
Qed.

Lemma appends_copy_file (local_file remote_destination : Path) :
  appends is_sftp (copy_file local_file remote_destination).
Proof.
  unfold copy_file.
  apply appends_bind; [apply appends__ssh_client | intros _].
  apply appends_bind; [now apply appends_invoke | intros _].
  now apply appends_invoke.
Qed.

(** *** The script's own exception class is never raised *)

Lemma clean_ret {A} (a : A) : clean (@ret T A a).
Proof. intros w. reflexivity. Qed.

Lemma clean_raise_builtin {A} (b : builtin) : clean (@raise T A (Builtin b)).
Proof. intros w. reflexivity. Qed.

Lemma clean_bind {A B} (m : M T A) (k : A -> M T B) :
  clean m -> (forall a, clean (k a)) -> clean (bind m k).
Proof.
  intros Hm Hk w. unfold bind. specialize (Hm w).
  destruct (m w) as [[e|a] w1]; [exact Hm | apply Hk].
Qed.

Lemma clean_invoke {A} (c : call) (op : T -> (string + A) * T) :
  clean (invoke c op).
Proof.
  intros w. rewrite invoke_run. simpl.
  now destruct (fst (op (remote w))).
Qed.

Lemma clean__ssh_client : clean (@_ssh_client T).
Proof.
  intros w. unfold _ssh_client, bind, get_self.
  now destruct (ssh_client (self w)).
Qed.

Lemma clean_print_lines (stdout : list string) :
  clean (@print_lines T stdout).
Proof. intros w. now rewrite print_lines_run. Qed.

Lemma clean_try_finally {A} (body : M T A) (fin : M T unit) :
  clean body -> clean fin -> clean (try_finally body fin).
Proof.
  intros Hb Hf w. unfold try_finally. specialize (Hb w).
  destruct (body w) as [r w1]. specialize (Hf w1).
  destruct (fin w1) as [[e|[]] w2]; assumption.
Qed.

Lemma clean_connect : clean (@connect T _).
Proof.
  unfold connect. apply clean_bind; [intros w; reflexivity | intros o].
  apply clean_bind; [apply clean_invoke | intros _; intros w; reflexivity].
Qed.

Lemma clean_close : clean (@close T _).
Proof.
  unfold close. apply clean_bind; [intros w; reflexivity | intros _].
  apply clean_bind; [apply clean__ssh_client | intros _; apply clean_invoke].
Qed.

Lemma clean_execute (command : list string) (as_root pty : bool) :
  clean (execute command as_root pty).
Proof.
  unfold execute.
  apply clean_bind; [apply clean__ssh_client | intros _].
  apply clean_bind; [apply clean_invoke | intros out].
  apply clean_bind; [apply clean_print_lines | intros _].
  intros w. reflexivity.
Qed.

Lemma clean_copy_folder (node : entry) :
  forall local_folder remote_destination sftp,
    clean (copy_folder node local_folder remote_destination sftp).
Proof.
  induction node as [| | |children IH] using entry_induction;
    intros local_folder remote_destination sftp; rewrite copy_folder_eq;
    (apply clean_bind;
     [destruct sftp;
      [apply clean_ret
      |apply clean_bind;
       [apply clean__ssh_client | intros _; apply clean_invoke]]
     |intros ch; cbv zeta;
      apply clean_bind; [apply clean_invoke | intros _]]);
    try apply clean_raise_builtin.
  induction IH as [|[n c] rest Hc _ IHrest]; simpl; [apply clean_ret|].
  apply clean_bind; [|intros _; exact IHrest].
  destruct c; try apply clean_ret.
  - apply clean_invoke.
  - apply Hc.
Qed.

Lemma clean_copy_file (local_file remote_destination : Path) :
  clean (copy_file local_file remote_destination).
Proof.
  unfold copy_file.
  apply clean_bind; [apply clean__ssh_client | intros _].
  apply clean_bind; [apply clean_invoke | intros _; apply clean_invoke].
Qed.

Lemma clean_open_ssh_client {A} (this : RemotePython) (body : M T A) :
  clean body -> clean (open_ssh_client this body).
Proof.
  intros Hb. unfold open_ssh_client.
  apply clean_bind; [intros w; reflexivity | intros _].
  apply clean_try_finally; [|apply clean_close].
  apply clean_bind; [apply clean_connect | intros _; exact Hb].
Qed.

Lemma clean_create_python_environment this path env_name :
  clean (create_python_environment this path env_name).
Proof. apply clean_open_ssh_client, clean_execute. Qed.

Lemma clean_execute_python_project this project file remote_destination
  as_root :
  clean (execute_python_project disk this project file remote_destination
                                as_root).
Proof.
  apply clean_open_ssh_client.
  apply clean_bind; [apply clean_execute | intros _].
  apply clean_bind; [apply clean_copy_folder | intros _; apply clean_execute].
Qed.

Lemma clean_execute_python_file this local_file remote_destination as_root :
  clean (execute_python_file disk this local_file remote_destination as_root).
Proof.
  unfold execute_python_file.
  apply clean_bind;
    [destruct (is_file (disk local_file));
     [apply clean_ret | apply clean_raise_builtin] | intros _].
  apply clean_bind; [intros w; reflexivity | intros _].
  apply clean_open_ssh_client.
  apply clean_bind; [apply clean_execute | intros _].
  apply clean_bind; [apply clean_copy_file | intros _; apply clean_execute].
Qed.

Lemma clean_main (arguments : Namespace) : clean (main disk arguments).
Proof.
  unfold main. destruct (action arguments).
  - apply clean_create_python_environment.
  - apply clean_execute_python_project.
  - apply clean_execute_python_file.
Qed.

(** *** The scope of a session *)

Lemma close_run (w : world T) :
  ssh_client (self w) = true ->
  close w = (match fst (ssh_close (remote w)) with
             | inl cls => inl (TransportError cls)
             | inr _ => inr tt
             end, closed w).
Proof.
  intros Hs. unfold close, _ssh_client, bind, enter_close, get_self.
  simpl. rewrite Hs. unfold invoke, closed. simpl.
  now destruct (ssh_close (remote w)) as [[cls|[]] t'].
Qed.

Lemma open_ssh_client_run {A} P (this : RemotePython) (body : M T A)
  (w : world T) :
  appends P body ->
  open_ssh_client this body w
  = match ssh_connect (rp_server this) (rp_user this) (rp_password this)
                      (remote w) with
    | (inl _, t1) => (inl (Builtin AttributeError), refused this t1 w)
    | (inr _, t1) =>
        let b := body (opened this t1 w) in
        (match fst (ssh_close (remote (snd b))) with
         | inl cls => inl (TransportError cls)
         | inr _ => fst b
         end, closed (snd b))
    end.
Proof.
  intros Hb.
  unfold open_ssh_client, try_finally, connect, bind, SSHClient_init,
    get_self, set_self, invoke. simpl.
  destruct (ssh_connect _ _ _ (remote w)) as [[cls|[]] t1]; simpl.
  - unfold close, _ssh_client, bind, enter_close, get_self. reflexivity.
  - fold (opened this t1 w).
    destruct (Hb (opened this t1 w)) as (Hs & _).
    destruct (body (opened this t1 w)) as [r wb]. simpl in *.
    rewrite close_run by (now rewrite Hs).
    now destruct (fst (ssh_close (remote wb))) as [cls|[]].
Qed.

Lemma execute_calls (command : list string) (as_root pty : bool)
  (w : world T) :
  ssh_client (self w) = true ->
  calls (snd (execute command as_root pty w))
  = calls w ++ [ExecCommand (invocation as_root command) pty].
Proof.
  intros Hs. rewrite (execute_run _ _ _ _ Hs). cbv zeta.
  destruct (ssh_exec_command _ _ (remote w)) as [[cls|[out err]] t'];
    reflexivity.
Qed.

Lemma sftp_not_session (c : call) :
  is_sftp c = true -> negb (is_session c) = true.
Proof. now destruct c. Qed.

Lemma exec_not_session (c : call) :
  is_exec c = true -> negb (is_session c) = true.
Proof. now destruct c. Qed.

Lemma appends_project_body project file remote_destination as_root folder :
  appends (fun c => negb (is_session c))
    (bind (execute [("rm -rf " ++ as_posix folder)%string] as_root false)
       (fun _ =>
          bind (copy_folder (disk project) project remote_destination None)
            (fun _ =>
               execute ["python3"; as_posix (joinpath folder [file])]
                       as_root true))).
Proof.
  apply appends_bind;
    [eapply appends_weaken; [apply exec_not_session | apply appends_execute]
    |intros _].
  apply appends_bind;
    [eapply appends_weaken;
     [apply sftp_not_session | apply appends_copy_folder]
    |intros _].
  eapply appends_weaken; [apply exec_not_session | apply appends_execute].
Qed.

Lemma appends_file_body local_file remote_destination as_root p :
  appends (fun c => negb (is_session c))
    (bind (execute [("rm -f " ++ p)%string] false false)
       (fun _ =>
          bind (copy_file local_file remote_destination)
            (fun _ => execute ["python3"; p] as_root true))).
Proof.
  apply appends_bind;
    [eapply appends_weaken; [apply exec_not_session | apply appends_execute]
    |intros _].
  apply appends_bind;
    [eapply appends_weaken; [apply sftp_not_session | apply appends_copy_file]
    |intros _].
  eapply appends_weaken; [apply exec_not_session | apply appends_execute].
Qed.

Lemma steps_run {A B C} (a : M T A) (b : M T B) (c : M T C) (w : world T) :
  bind a (fun _ => bind b (fun _ => c)) w
  = match a w with
    | (inl e, wa) => (inl e, wa)
    | (inr _, wa) => match b wa with
                     | (inl e, wb) => (inl e, wb)
                     | (inr _, wb) => c wb
                     end
    end.
Proof. reflexivity. Qed.

Lemma execute_python_file_run this local_file remote_destination as_root
  (w : world T) :
  execute_python_file disk this local_file remote_destination as_root w
  = if is_file (disk local_file) then
      let p := as_posix (joinpath remote_destination
                                  [parse (name local_file)]) in
      open_ssh_client this
        (bind (execute [("rm -f " ++ p)%string] false false)
           (fun _ =>
              bind (copy_file local_file remote_destination)
                (fun _ => execute ["python3"; p] as_root true)))
        (advance (remote w) [] [(as_posix remote_destination ++ newline)%string]
                 w)
    else (inl (Builtin AssertionError), w).
Proof.
  unfold execute_python_file. unfold bind at 1.
  destruct (is_file (disk local_file)); unfold ret, raise; [|reflexivity].
  unfold bind at 1. now rewrite print_run.
Qed.

Lemma open_ssh_client_scope {A} (this : RemotePython) (body : M T A)
  (w : world T) :
  appends (fun c => negb (is_session c)) body ->
  let res := open_ssh_client this body w in
  let opening :=
    Connect (rp_server this) (rp_user this) (rp_password this) in
  constructed (snd res) = S (constructed w) /\
  close_invoked (snd res) = S (close_invoked w) /\
  match ssh_connect (rp_server this) (rp_user this) (rp_password this)
                    (remote w) with
  | (inl _, _) => calls (snd res) = calls w ++ [opening]
  | (inr _, _) =>
      exists cs, calls (snd res) = calls w ++ opening :: cs ++ [Close] /\
                 forallb (fun c => negb (is_session c)) cs = true
  end.
Proof.
  intros Hb. cbv zeta. rewrite (open_ssh_client_run _ this body w Hb).
  destruct (ssh_connect _ _ _ (remote w)) as [[cls|[]] t1].
  - now repeat split.
  - cbv zeta.
    destruct (Hb (opened this t1 w)) as (_ & Hc & Hi & cs & Hcs & HP).
    simpl. rewrite Hc, Hi. repeat split.
    exists cs. rewrite Hcs. simpl. rewrite <- !app_assoc. now split.
Qed.

(** *** Mirroring a tree *)

Lemma after_app (t : T) (a b : list call) :
  after t (a ++ b) = after (after t a) b.
Proof. revert t. induction a as [|c a IH]; intros t; simpl; auto. Qed.

Lemma accepts_app (t : T) (a b : list call) :
  accepts t (a ++ b) = accepts t a && accepts (after t a) b.
Proof.
  revert t. induction a as [|c a IH]; intros t; simpl; [reflexivity|].
  destruct (perform c t) as [[cls|[]] t'] eqn:E; simpl; [reflexivity|].
  apply IH.
Qed.

Lemma invoke_accepted (c : call) (w : world T) :
  accepts (remote w) [c] = true ->
  invoke c (perform c) w
  = (inr tt, advance (after (remote w) [c]) [c] [] w).
Proof.
  intros H. rewrite invoke_run. simpl in *.
  now destruct (perform c (remote w)) as [[cls|[]] t'].
Qed.

Lemma joinpath_one (destination : Path) (pre : list string) (n : string) :
  component n = true ->
  joinpath (extend destination pre) [parse n] = extend destination (pre ++ [n]).
Proof.
  intros Hn. unfold joinpath. simpl.
  now rewrite (truediv_component _ _ Hn), extend_extend.
Qed.

Lemma joinpath_two (destination : Path) (pre : list string) (n m : string) :
  component n = true -> component m = true ->
  joinpath (extend destination pre) [parse n; parse m]
  = extend destination ((pre ++ [n]) ++ [m]).
Proof.
  intros Hn Hm. unfold joinpath. simpl.
  rewrite (truediv_component _ _ Hn), (truediv_component _ _ Hm).
  unfold extend. simpl. now rewrite <- !app_assoc.
Qed.

(** The recursive call: [local_folder] is [base/pre/n], the remote
    destination is [destination/pre]. *)
Lemma copy_folder_mirror (base destination : Path) (node : entry) :
  forall (pre : list string) (n : string) (w : world T),
    is_dir node = true ->
    component n = true ->
    well_named node = true ->
    accepts (remote w) (mirror base destination (pre ++ [n]) node) = true ->
    copy_folder node (extend base (pre ++ [n])) (extend destination pre)
                (Some tt) w
    = (inr tt,
       advance (after (remote w)
                  (mirror base destination (pre ++ [n]) node))
               (mirror base destination (pre ++ [n]) node) [] w).
Proof.
  induction node as [| | |children IH] using entry_induction;
    intros pre n w Hdir Hn Hwn Hacc; try discriminate Hdir.
  rewrite copy_folder_eq. unfold bind at 1, ret. cbv zeta.
  rewrite name_extend, (joinpath_one _ _ _ Hn).
  rewrite mirror_Dir in *.
  set (rel := pre ++ [n]) in *.
  change (Mkdir (as_posix (extend destination rel)) :: ?l)
    with ([Mkdir (as_posix (extend destination rel))] ++ l) in *.
  rewrite accepts_app in Hacc. apply andb_true_iff in Hacc as [Hmk Hacc].
  change (sftp_mkdir (as_posix (extend destination rel)))
    with (perform (Mkdir (as_posix (extend destination rel)))).
  unfold bind at 1. rewrite (invoke_accepted _ w Hmk).
  rewrite after_app.
  set (w1 := advance _ [Mkdir _] [] w).
  change (after (remote w) [Mkdir (as_posix (extend destination rel))])
    with (remote w1) in Hacc |- *.
  assert (Hgoal :
    copy_children (extend base rel) (extend destination pre) tt children w1
    = (inr tt,
       advance
         (after (remote w1)
            (flat_map
               (fun nc => mirror base destination (rel ++ [fst nc]) (snd nc))
               children))
         (flat_map
            (fun nc => mirror base destination (rel ++ [fst nc]) (snd nc))
            children) [] w1)).
  { clear Hmk Hdir. simpl in Hwn. clearbody w1. revert w1 Hacc.
    assert (Hname : name (extend base rel) = n) by apply name_extend.
    assert (Hj1 : joinpath (extend destination pre) [parse n]
                  = extend destination rel) by now apply joinpath_one.
    induction IH as [|[m c] rest Hc _ IHrest]; intros w1 Hacc.
    - simpl. unfold ret. now rewrite advance_nil.
    - simpl in Hwn. apply andb_true_iff in Hwn as [Hm Hrest].
      apply andb_true_iff in Hm as [Hm Hwc]. simpl in Hm, Hwc, Hc.
      simpl flat_map in *. rewrite accepts_app in Hacc.
      apply andb_true_iff in Hacc as [Hacc1 Hacc2].
      rewrite after_app.
      change (copy_children (extend base rel) (extend destination pre) tt
                ((m, c) :: rest))
        with (bind
                match c with
                | File =>
                    let dst :=
                      joinpath (extend destination pre)
                        [parse (name (extend base rel));
                         parse (name (child (extend base rel) m))] in
                    invoke (Put (as_posix (child (extend base rel) m))
                                (as_posix dst))
                           (sftp_put (as_posix (child (extend base rel) m))
                                     (as_posix dst))
                | Dir _ =>
                    copy_folder c (child (extend base rel) m)
                      (joinpath (extend destination pre)
                         [parse (name (extend base rel))])
                      (Some tt)
                | _ => ret tt
                end
                (fun _ => copy_children (extend base rel)
                            (extend destination pre) tt rest)).
      rewrite !Hname, name_child, child_extend, Hj1.
      rewrite (joinpath_two _ _ _ _ Hn Hm
               : _ = extend destination (rel ++ [m])).
      assert (Hstep :
        match c with
        | File =>
            invoke (Put (as_posix (extend base (rel ++ [m])))
                        (as_posix (extend destination (rel ++ [m]))))
                   (sftp_put (as_posix (extend base (rel ++ [m])))
                             (as_posix (extend destination (rel ++ [m]))))
        | Dir _ =>
            copy_folder c (extend base (rel ++ [m])) (extend destination rel)
                        (Some tt)
        | _ => ret tt
        end w1
        = (inr tt,
           advance (after (remote w1)
                      (mirror base destination (rel ++ [m]) c))
                   (mirror base destination (rel ++ [m]) c) [] w1)).
      { destruct c as [|gc| |].
        - rewrite mirror_File in *.
          change (sftp_put ?l ?r) with (perform (Put l r)).
          now rewrite (invoke_accepted _ w1 Hacc1).
        - now apply Hc.
        - unfold ret. simpl. now rewrite advance_nil.
        - unfold ret. simpl. now rewrite advance_nil. }
      unfold bind. cbv zeta. rewrite Hstep.
      rewrite (IHrest Hrest). 2: exact Hacc2.
      now rewrite advance_advance. }
  rewrite Hgoal. unfold w1 at 2. now rewrite advance_advance.
Qed.

Lemma copy_folder_None (node : entry) (local_folder remote_destination : Path) :
  copy_folder node local_folder remote_destination None
  = bind (bind _ssh_client (fun _ => invoke OpenSftp ssh_open_sftp))
      (fun sftp =>
         copy_folder node local_folder remote_destination (Some sftp)).
Proof. destruct node; reflexivity. Qed.

(** ** The claims *)

(** C1. Mirroring a well-formed local directory [D] onto [R] through an
    attached client, when the remote side raises on none of the calls,
    returns normally after issuing, once the file channel is open, exactly
    the calls of the nodes of [D], parents first: one [Mkdir] per directory
    node ([D] included, empty or not) and one [Put] per regular file, each
    at [R] followed by the node's path relative to the parent of [D]; the
    source of a [Put] is the file's local path. *)
Theorem copy_folder_mirrors (D : Path) (children : list (string * entry))
  (R : Path) (w : world T) :
  component (name D) = true ->
  well_named (Dir children) = true ->
  ssh_client (self w) = true ->
  accepts (remote w)
    (OpenSftp :: mirror (parent D) R [name D] (Dir children)) = true ->
  copy_folder (Dir children) D R None w
  = (inr tt,
     advance
       (after (remote w)
          (OpenSftp :: mirror (parent D) R [name D] (Dir children)))
       (OpenSftp :: mirror (parent D) R [name D] (Dir children)) [] w)
  /\ List.length (filter is_mkdir
                    (OpenSftp :: mirror (parent D) R [name D] (Dir children)))
     = count_nodes is_dir (Dir children)
  /\ List.length (filter is_put
                    (OpenSftp :: mirror (parent D) R [name D] (Dir children)))
     = count_nodes is_file (Dir children).
Proof.
  intros Hn Hwn Hs Hacc. split; [|split].
  - change (OpenSftp :: ?l) with ([OpenSftp] ++ l) in *.
    rewrite accepts_app in Hacc. apply andb_true_iff in Hacc as [Ho Hacc].
    rewrite copy_folder_None. unfold bind at 1 2.
    rewrite (_ssh_client_set w Hs).
    change ssh_open_sftp with (perform OpenSftp).
    rewrite (invoke_accepted _ w Ho), after_app.
    set (w1 := advance _ [OpenSftp] [] w).
    change (after (remote w) [OpenSftp]) with (remote w1) in Hacc |- *.
    pose proof (copy_folder_mirror (parent D) R (Dir children) [] (name D) w1
                  eq_refl Hn Hwn Hacc) as H.
    simpl app in H.
    rewrite (parent_name D (component_nonempty _ Hn)), extend_nil in H.
    rewrite H. unfold w1 at 2. now rewrite advance_advance.
  - change (filter is_mkdir (OpenSftp :: ?l)) with (filter is_mkdir l).
    apply mirror_mkdirs.
  - change (filter is_put (OpenSftp :: ?l)) with (filter is_put l).
    apply mirror_puts.
Qed.

Ltac scope_with framing :=
  match goal with
  | |- context [open_ssh_client ?this ?b ?w] =>
      let H := fresh "H" in
      assert (H : appends (fun c => negb (is_session c)) b) by framing;
      pose proof (open_ssh_client_scope this b w H) as Hscope;
      cbv zeta in Hscope;
      remember (open_ssh_client this b w) as res eqn:Eres; clear Eres;
      destruct Hscope as (Hc & Hi & Hcalls);
      simpl in Hc, Hi, Hcalls; rewrite Hc, Hi;
      split; [split; reflexivity | exact Hcalls]
  end.

(** C2, as amended. A workflow whose opening assertion holds constructs
    exactly one client and enters its [close] exactly once, however the
    workflow ends; when the connection was established the calls between
    [Connect] and the final [Close] are neither of the two. A refused
    connection leaves [Connect] as the only call. The execute-file workflow
    whose local path is not a regular file stops at its assertion with no
    client constructed and nothing closed. *)
Theorem session_scope (arguments : Namespace) (t : T) :
  let res := main disk arguments (boot t) in
  if precondition disk arguments then
    one_session_closed (snd res) /\
    match ssh_connect (arg_server arguments) (arg_user arguments)
                      (arg_password arguments) t with
    | (inl _, _) => calls (snd res) = [connect_call arguments]
    | (inr _, _) =>
        exists cs, calls (snd res) = connect_call arguments :: cs ++ [Close]
                   /\ forallb (fun c => negb (is_session c)) cs = true
    end
  else
    fst res = inl (Builtin AssertionError) /\
    constructed (snd res) = 0 /\ close_invoked (snd res) = 0 /\
    calls (snd res) = [].
Proof.
  destruct arguments as [s u p act].
  destruct act as [folder n|rd as_root project file|rd as_root file];
    unfold precondition, main, connect_call, one_session_closed;
    cbv zeta; cbn [action arg_server arg_user arg_password].
  - unfold create_python_environment.
    scope_with
      ltac:(eapply appends_weaken;
            [apply exec_not_session | apply appends_execute]).
  - unfold execute_python_project.
    scope_with ltac:(apply appends_project_body).
  - rewrite execute_python_file_run.
    destruct (is_file (disk file)); [cbv zeta | now repeat split].
    scope_with ltac:(apply appends_file_body).
Qed.

(** The order of the steps of [execute_python_project] for any local project
    path: after [Connect], the removal command, then file-channel calls
    only, then the interpreter command, then [Close]; a raising step cuts
    the sequence. *)
Lemma project_steps_in_order (this : RemotePython)
  (project file remote_destination : Path) (as_root : bool) (t : T) :
  let folder := truediv remote_destination (parse (name project)) in
  let opening :=
    Connect (rp_server this) (rp_user this) (rp_password this) in
  let removal :=
    ExecCommand (elevation as_root ++ "rm -rf " ++ as_posix folder) false in
  let running :=
    ExecCommand (elevation as_root ++ "python3 "
                 ++ as_posix (truediv folder file)) true in
  let final :=
    calls (snd (execute_python_project disk this project file
                  remote_destination as_root (boot t))) in
  match ssh_connect (rp_server this) (rp_user this) (rp_password this) t with
  | (inl _, _) => final = [opening]
  | (inr _, t1) =>
      let a := execute [("rm -rf " ++ as_posix folder)%string] as_root false
                       (opened this t1 (boot t)) in
      let b := copy_folder (disk project) project remote_destination None
                           (snd a) in
      calls (snd a) = [opening; removal] /\
      if raised (fst a) then final = [opening; removal; Close]
      else
        exists transfer,
          forallb is_sftp transfer = true /\
          calls (snd b) = [opening; removal] ++ transfer /\
          final = if raised (fst b)
                  then [opening; removal] ++ transfer ++ [Close]
                  else [opening; removal] ++ transfer ++ [running; Close]
  end.
Proof.
  cbv zeta. unfold execute_python_project. cbv zeta.
  rewrite (open_ssh_client_run _ this _ (boot t)
             (appends_project_body project file remote_destination as_root
                (truediv remote_destination (parse (name project))))).
  change (remote (boot t)) with t.
  destruct (ssh_connect _ _ _ t) as [[cls|[]] t1]; [reflexivity|].
  cbv zeta. set (w1 := opened this t1 (boot t)).
  assert (H1 : ssh_client (self w1) = true) by reflexivity.
  pose proof (execute_calls
                [("rm -rf " ++ as_posix (truediv remote_destination
                                           (parse (name project))))%string]
                as_root false w1 H1) as Ha.
  rewrite invocation_one in Ha.
  destruct (appends_execute
              [("rm -rf " ++ as_posix (truediv remote_destination
                                         (parse (name project))))%string]
              as_root false w1) as (Hsa & _).
  rewrite steps_run.
  destruct (execute _ as_root false w1) as [[e|[]] wa]; simpl in Ha, Hsa |- *.
  - split; [exact Ha | now rewrite Ha].
  - split; [exact Ha|].
    destruct (appends_copy_folder (disk project) project remote_destination
                None wa) as (Hsb & _ & _ & B & HB & HP).
    exists B. split; [exact HP|]. rewrite Ha in HB. split; [exact HB|].
    destruct (copy_folder _ project remote_destination None wa)
      as [[e|[]] wb]; simpl in HB, Hsb |- *.
    + now rewrite HB.
    + assert (H2 : ssh_client (self wb) = true) by (now rewrite Hsb, Hsa).
      rewrite (execute_calls _ as_root true wb H2), invocation_two, HB.
      simpl. now rewrite <- !app_assoc.
Qed.

(** When the remote side refuses to create [R/D.name], [copy_folder] raises
    the transport's exception at once: the only calls issued are the opening
    of the file channel and that [Mkdir]. *)
Lemma copy_folder_mkdir_refused (node : entry) (D R : Path) (w : world T)
  (cls : string) (t1 t2 : T) :
  ssh_client (self w) = true ->
  ssh_open_sftp (remote w) = (inr tt, t1) ->
  sftp_mkdir (as_posix (joinpath R [parse (name D)])) t1 = (inl cls, t2) ->
  copy_folder node D R None w
  = (inl (TransportError cls),
     advance t2 [OpenSftp; Mkdir (as_posix (joinpath R [parse (name D)]))]
             [] w)
  /\ filter is_put
       [OpenSftp; Mkdir (as_posix (joinpath R [parse (name D)]))] = [].
Proof.
  intros Hs Ho Hm. split; [|reflexivity].
  rewrite copy_folder_eq. unfold bind, invoke.
  rewrite (_ssh_client_set w Hs), Ho. cbv beta iota zeta. cbn [remote].
  rewrite Hm. unfold advance. cbn [calls console self constructed
                                   close_invoked].
  now rewrite <- app_assoc, app_nil_r.
Qed.

(** C4, as amended. [present t p] says that the path [p] exists on the remote
    side [t]; the transport refuses the creation of a path that exists, as
    an SFTP server does, and opening a file channel removes nothing. Then
    mirroring [D] into [R] where [R/D.name] already exists fails at the
    creation of [R/D.name] with the exception the transport raised there --
    the script has no error class of its own for it --, the only calls issued
    being the opening of the file channel and that [Mkdir]: no [Put] is
    issued. *)
Theorem copy_folder_collision (present : T -> string -> bool) (node : entry)
  (D R : Path) (w : world T) :
  (forall t p, present t p = true -> raised (fst (sftp_mkdir p t)) = true) ->
  (forall t p, present t p = true ->
               present (snd (ssh_open_sftp t)) p = true) ->
  ssh_client (self w) = true ->
  raised (fst (ssh_open_sftp (remote w))) = false ->
  present (remote w) (as_posix (joinpath R [parse (name D)])) = true ->
  let target := as_posix (joinpath R [parse (name D)]) in
  let res := copy_folder node D R None w in
  exists cls,
    fst (sftp_mkdir target (snd (ssh_open_sftp (remote w)))) = inl cls /\
    fst res = inl (TransportError cls) /\
    domain_error (fst res) = false /\
    calls (snd res) = calls w ++ [OpenSftp; Mkdir target] /\
    filter is_put [OpenSftp; Mkdir target] = [].
Proof.
  intros Hlaw Hkeep Hs Ho Hp. cbv zeta.
  pose proof (Hkeep _ _ Hp) as Hp1.
  destruct (ssh_open_sftp (remote w)) as [[e|[]] t1] eqn:Eo;
    cbn [fst snd raised] in Ho, Hp1; [discriminate Ho|].
  pose proof (Hlaw _ _ Hp1) as Hm.
  destruct (sftp_mkdir (as_posix (joinpath R [parse (name D)])) t1)
    as [[cls|[]] t2] eqn:Em; cbn [fst raised] in Hm; [|discriminate Hm].
  exists cls.
  destruct (copy_folder_mkdir_refused node D R w cls t1 t2 Hs Eo Em)
    as [Hrun _].
  cbn [snd]. rewrite Em, Hrun. now repeat split.
Qed.

(** C6. [close] on a client that was never connected raises the built-in
    [AttributeError] of the handle lookup, without a call to the transport;
    so does the closing of a workflow whose connection was refused, where it
    replaces the transport's exception. *)
Theorem close_before_connect_raises (s u p : string)
  (this : RemotePython) (body : M T unit) (w : world T) :
  let w0 := snd (SSHClient_init s u p w) in
  fst (close w0) = inl (Builtin AttributeError) /\
  calls (snd (close w0)) = calls w /\
  match ssh_connect (rp_server this) (rp_user this) (rp_password this)
                    (remote w) with
  | (inl _, _) =>
      fst (open_ssh_client this body w) = inl (Builtin AttributeError)
  | (inr _, _) => True
  end.
Proof.
  cbv zeta. split; [reflexivity|]. split; [reflexivity|].
  unfold open_ssh_client, try_finally, connect, bind, SSHClient_init,
    get_self, set_self, invoke. simpl.
  now destruct (ssh_connect _ _ _ (remote w)) as [[cls|[]] t1].
Qed.

(** C7. For every token sequence, [execute] hands the transport one command
    string: with [as_root] it is the prefix "sudo -E" followed by every token
    in order, each after a single space and unchanged; without [as_root] it is
    the tokens in order separated by single spaces. *)
Theorem execute_invocation_string (command : list string)
  (as_root pty : bool) (w : world T) :
  ssh_client (self w) = true ->
  calls (snd (execute command as_root pty w))
  = calls w ++ [ExecCommand (invocation as_root command) pty].
Proof.
  intros Hs. rewrite (execute_run _ _ _ _ Hs). cbv zeta.
  destruct (ssh_exec_command _ _ (remote w)) as [[cls|[out err]] t'];
    reflexivity.
Qed.

(** C8. With [print_continuously] false, when the remote command has run,
    [execute] returns normally after printing the lines of standard output
    and then, as the last item, the whole standard-error stream, whatever its
    content: an empty one gives an empty line and no exception. *)
Theorem execute_buffered_stderr (command : list string) (as_root : bool)
  (w : world T) (out err : list string) (t' : T) :
  ssh_client (self w) = true ->
  ssh_exec_command (invocation as_root command) false (remote w)
  = (inr (out, err), t') ->
  execute command as_root false w
  = (inr tt,
     advance t' [ExecCommand (invocation as_root command) false]
       (shown out ++ [(String.concat "" err ++ newline)%string]) w).
Proof.
  intros Hs He. rewrite (execute_run _ _ _ _ Hs). cbv zeta. now rewrite He.
Qed.

(** C9. In [execute_python_file] the removal command is "rm -f R/name" with
    no elevation prefix whatever [as_root] is; the elevation prefix, present
    exactly when [as_root] is set, goes to the interpreter command alone,
    which is the last command of the workflow. *)
Theorem execute_file_removal_not_elevated (this : RemotePython)
  (local_file remote_destination : Path) (as_root : bool) (t : T) :
  let p := as_posix (joinpath remote_destination [parse (name local_file)]) in
  let opening :=
    Connect (rp_server this) (rp_user this) (rp_password this) in
  let removal := ExecCommand ("rm -f " ++ p) false in
  let running := ExecCommand (elevation as_root ++ "python3 " ++ p) true in
  let final :=
    calls (snd (execute_python_file disk this local_file remote_destination
                  as_root (boot t))) in
  if is_file (disk local_file) then
    match ssh_connect (rp_server this) (rp_user this) (rp_password this) t
    with
    | (inl _, _) => final = [opening]
    | (inr _, t1) =>
        let w1 :=
          opened this t1
            (advance t [] [(as_posix remote_destination ++ newline)%string]
                     (boot t)) in
        let a := execute [("rm -f " ++ p)%string] false false w1 in
        let b := copy_file local_file remote_destination (snd a) in
        calls (snd a) = [opening; removal] /\
        if raised (fst a) then final = [opening; removal; Close]
        else
          exists transfer,
            forallb is_sftp transfer = true /\
            calls (snd b) = [opening; removal] ++ transfer /\
            final = if raised (fst b)
                    then [opening; removal] ++ transfer ++ [Close]
                    else [opening; removal] ++ transfer ++ [running; Close]
    end
  else final = [].
Proof.
  cbv zeta. rewrite execute_python_file_run.
  destruct (is_file (disk local_file)); [|reflexivity]. cbv zeta.
  rewrite (open_ssh_client_run _ this _ _
             (appends_file_body local_file remote_destination as_root
                (as_posix (joinpath remote_destination
                                    [parse (name local_file)])))).
  change (remote (advance (remote (boot t)) [] _ (boot t))) with t.
  change (remote (boot t)) with t.
  destruct (ssh_connect _ _ _ t) as [[cls|[]] t1]; [reflexivity|].
  cbv zeta.
  set (w1 := opened this t1 (advance t [] _ (boot t))).
  assert (H1 : ssh_client (self w1) = true) by reflexivity.
  pose proof (execute_calls
                [("rm -f " ++ as_posix (joinpath remote_destination
                                          [parse (name local_file)]))%string]
                false false w1 H1) as Ha.
  rewrite invocation_one in Ha.
  destruct (appends_execute
              [("rm -f " ++ as_posix (joinpath remote_destination
                                        [parse (name local_file)]))%string]
              false false w1) as (Hsa & _).
  rewrite steps_run.
  destruct (execute _ false false w1) as [[e|[]] wa]; simpl in Ha, Hsa |- *.
  - split; [exact Ha | now rewrite Ha].
  - split; [exact Ha|].
    destruct (appends_copy_file local_file remote_destination wa)
      as (Hsb & _ & _ & B & HB & HP).
    exists B. split; [exact HP|]. rewrite Ha in HB. split; [exact HB|].
    destruct (copy_file local_file remote_destination wa)
      as [[e|[]] wb]; simpl in HB, Hsb |- *.
    + now rewrite HB.
    + assert (H2 : ssh_client (self wb) = true) by (now rewrite Hsb, Hsa).
      rewrite (execute_calls _ as_root true wb H2), invocation_two, HB.
      simpl. now rewrite <- !app_assoc.
Qed.

(** C10. None of [connect], [close], [execute], [copy_folder], [copy_file]
    and the three workflows ever raises [RemotePythonException]; so the
    script never ends in its [except RemotePythonException] handler: it
    either returns or leaves with the traceback of the built-in or transport
    exception that was raised. *)
Theorem domain_exception_never_raised :
  clean (@connect T _) /\ clean (@close T _) /\
  (forall command as_root pty, clean (execute command as_root pty)) /\
  (forall node local_folder remote_destination sftp,
      clean (copy_folder node local_folder remote_destination sftp)) /\
  (forall local_file remote_destination,
      clean (copy_file local_file remote_destination)) /\
  (forall this path env_name,
      clean (create_python_environment this path env_name)) /\
  (forall this project file remote_destination as_root,
      clean (execute_python_project disk this project file
                                    remote_destination as_root)) /\
  (forall this local_file remote_destination as_root,
      clean (execute_python_file disk this local_file remote_destination
                                 as_root)) /\
  (forall arguments w,
      handled (fst (script disk arguments w)) = false /\
      fst (script disk arguments w)
      = match fst (main disk arguments w) with
        | inr _ => Returned
        | inl e => Traceback e
        end).
Proof.
  repeat split.
  - apply clean_connect.
  - apply clean_close.
  - intros. apply clean_execute.
  - intros. apply clean_copy_folder.
  - intros. apply clean_copy_file.
  - intros. apply clean_create_python_environment.
  - intros. apply clean_execute_python_project.
  - intros. apply clean_execute_python_file.
  - pose proof (clean_main arguments w) as H. unfold script.
    destruct (main disk arguments w) as [[[b|cls|msg]|[]] w'];
      simpl in *; congruence.
  - pose proof (clean_main arguments w) as H. unfold script.
    destruct (main disk arguments w) as [[[b|cls|msg]|[]] w'];
      simpl in *; congruence.
Qed.

End Facts.

(** ** The claims on the fake transport *)

Lemma copy_folder_mirrors_witness :
  copy_folder (Dir Demo.app) (parse "/local/App") (parse "/srv") None
              (Demo.connected (Fake.quiet []))
  = (inr tt,
     advance
       (Fake.online ["/srv/App/pkg/empty"; "/srv/App/pkg/a.py";
                     "/srv/App/pkg"; "/srv/App/run.py"; "/srv/App"])
       [OpenSftp;
        Mkdir "/srv/App";
        Put "/local/App/run.py" "/srv/App/run.py";
        Mkdir "/srv/App/pkg";
        Put "/local/App/pkg/a.py" "/srv/App/pkg/a.py";
        Mkdir "/srv/App/pkg/empty"]
       [] (Demo.connected (Fake.quiet [])))
  /\ 3 = 3 /\ 2 = 2.
Proof.
  exact (copy_folder_mirrors (parse "/local/App") Demo.app (parse "/srv")
           (Demo.connected (Fake.quiet []))
           eq_refl eq_refl eq_refl eq_refl).
Defined.

(** C2, as stated, fails: the execute-file workflow on a local path that is
    not a regular file raises [AssertionError] before any client is
    constructed, so on this exit path no session was opened and no [close]
    was entered. *)
Lemma execute_file_without_session :
  let res := execute_python_file Demo.disk Demo.pi (parse "/local/absent.py")
               (parse "/srv") false (boot (Fake.quiet [])) in
  res = (inl (Builtin AssertionError), boot (Fake.quiet [])) /\
  ~ one_session_closed (snd res).
Proof.
  split; [reflexivity|]. intros [H _]. discriminate H.
Qed.

(** C4, as stated, fails: mirroring onto a remote side where [/srv/App]
    exists does fail before any [Put], but with the [OSError] the transport
    raised, not with an error class of the script. *)
Lemma collision_error_is_the_transports :
  let res := copy_folder (Dir Demo.app) (parse "/local/App") (parse "/srv")
               None (Demo.connected (Fake.quiet ["/srv/App"])) in
  Fake.holds (remote (Demo.connected (Fake.quiet ["/srv/App"])))
             "/srv/App" = true /\
  fst res = inl (TransportError "OSError") /\
  domain_error (fst res) = false.
Proof. repeat split. Qed.

Lemma copy_folder_collision_witness :
  let res := copy_folder (Dir Demo.app) (parse "/local/App") (parse "/srv")
               None (Demo.connected (Fake.quiet ["/srv/App"])) in
  exists cls,
    fst (sftp_mkdir "/srv/App" (Fake.online ["/srv/App"])) = inl cls /\
    fst res = inl (TransportError cls) /\
    domain_error (fst res) = false /\
    calls (snd res)
    = [Connect "host" "pi" "secret"; OpenSftp; Mkdir "/srv/App"] /\
    @nil call = [].
Proof.
  assert (Hlaw : forall t p, Fake.holds t p = true ->
                             raised (fst (sftp_mkdir p t)) = true).
  { intros t p H. unfold Fake.holds in H. simpl. now rewrite H. }
  assert (Hkeep : forall t p, Fake.holds t p = true ->
                              Fake.holds (snd (ssh_open_sftp t)) p = true).
  { intros t p H. simpl. unfold Fake.guarded.
    destruct (Fake.refuse t OpenSftp); [exact H|].
    destruct (Fake.strict t && negb (Fake.connected t)
              && Fake.needs_connection OpenSftp); exact H. }
  exact (copy_folder_collision Fake.holds (Dir Demo.app)
           (parse "/local/App") (parse "/srv")
           (Demo.connected (Fake.quiet ["/srv/App"]))
           Hlaw Hkeep eq_refl eq_refl eq_refl).
Defined.


Lemma execute_invocation_string_witness :
  calls (snd (execute ["python3"; "-m"; "venv"; "/srv/my env"] true false
                      (Demo.connected (Fake.quiet []))))
  = [Connect "host" "pi" "secret";
     ExecCommand "sudo -E python3 -m venv /srv/my env" false].
Proof.
  apply (execute_invocation_string
           ["python3"; "-m"; "venv"; "/srv/my env"] true false
           (Demo.connected (Fake.quiet []))).
  reflexivity.
Defined.

Lemma execute_buffered_stderr_witness :
  execute ["make"] false false (Demo.connected Demo.chatty)
  = (inr tt,
     advance Demo.chatty [ExecCommand "make" false]
       (["building" ++ newline; "done" ++ newline; newline]%string)
       (Demo.connected Demo.chatty)).
Proof.
  apply (execute_buffered_stderr ["make"] false
           (Demo.connected Demo.chatty)
           (["building" ++ newline; "done" ++ newline]%string) []
           Demo.chatty); reflexivity.
Defined.

(** ** Runs against the fake transport *)

Example project_run :
  let res := execute_python_project Demo.disk Demo.pi (parse "/local/App")
               (parse "run.py") (parse "/srv") false
               (boot (Fake.quiet [])) in
  fst res = inr tt /\
  calls (snd res)
  = [Connect "host" "pi" "secret";
     ExecCommand "rm -rf /srv/App" false;
     OpenSftp;
     Mkdir "/srv/App";
     Put "/local/App/run.py" "/srv/App/run.py";
     Mkdir "/srv/App/pkg";
     Put "/local/App/pkg/a.py" "/srv/App/pkg/a.py";
     Mkdir "/srv/App/pkg/empty";
     ExecCommand "python3 /srv/App/run.py" true;
     Close].
Proof. split; reflexivity. Qed.

Example project_run_transfer_refused :
  let res := execute_python_project Demo.disk Demo.pi (parse "/local/App")
               (parse "run.py") (parse "/srv") true
               (boot (Fake.quiet ["/srv/App"])) in
  fst res = inl (TransportError "OSError") /\
  calls (snd res)
  = [Connect "host" "pi" "secret";
     ExecCommand "sudo -E rm -rf /srv/App" false;
     OpenSftp;
     Mkdir "/srv/App";
     Close].
Proof. split; reflexivity. Qed.

Example project_run_removal_refused :
  let res := execute_python_project Demo.disk Demo.pi (parse "/local/App")
               (parse "run.py") (parse "/srv") false
               (boot (Demo.faulty is_exec)) in
  fst res = inl (TransportError "SSHException") /\
  calls (snd res)
  = [Connect "host" "pi" "secret";
     ExecCommand "rm -rf /srv/App" false;
     Close].
Proof. split; reflexivity. Qed.

Example file_run_elevated :
  let res := execute_python_file Demo.disk Demo.pi (parse "/local/task.py")
               (parse "/srv") true (boot (Fake.quiet [])) in
  fst res = inr tt /\
  calls (snd res)
  = [Connect "host" "pi" "secret";
     ExecCommand "rm -f /srv/task.py" false;
     OpenSftp;
     Put "/local/task.py" "/srv/task.py";
     ExecCommand "sudo -E python3 /srv/task.py" true;
     Close].
Proof. split; reflexivity. Qed.

Example environment_connection_refused :
  let res := create_python_environment Demo.pi (parse "/srv") "venv"
               (boot (Demo.faulty is_session)) in
  fst res = inl (Builtin AttributeError) /\
  calls (snd res) = [Connect "host" "pi" "secret"] /\
  constructed (snd res) = 1 /\ close_invoked (snd res) = 1.
Proof. repeat split. Qed.

Example empty_directory_created :
  calls (snd (copy_folder (Dir []) (parse "/local/empty") (parse "/srv") None
                          (Demo.connected (Fake.quiet []))))
  = [Connect "host" "pi" "secret"; OpenSftp; Mkdir "/srv/empty"].
Proof. reflexivity. Qed.

Example lenient_remote_after_close :
  let w := Demo.closed_again (Fake.quiet []) in
  calls w = [Connect "host" "pi" "secret"; Close] /\
  raised (fst (execute ["ls"] false false w)) = false /\
  raised (fst (copy_file (parse "/local/task.py") (parse "/srv") w)) = false /\
  raised (fst (copy_folder (Dir Demo.app) (parse "/local/App") (parse "/srv")
                           None w)) = false.
Proof. repeat split. Qed.

Example execute_after_close_strict :
  let res := execute ["ls"] false false
               (Demo.closed_again Fake.paramiko_like) in
  fst res = inl (TransportError "AttributeError") /\
  calls (snd res)
  = [Connect "host" "pi" "secret"; Close; ExecCommand "ls" false].
Proof. split; reflexivity. Qed.

Example close_on_fresh_client :
  close (Demo.fresh (Fake.quiet []))
  = (inl (Builtin AttributeError),
     mkWorld (Fake.quiet []) [] [] (mkSSHClient "host" "pi" "secret" false)
             1 1).
Proof. reflexivity. Qed.

Example close_twice :
  let res := bind close (fun _ => close) (Demo.connected (Fake.quiet [])) in
  fst res = inr tt /\
  calls (snd res) = [Connect "host" "pi" "secret"; Close; Close].
Proof. split; reflexivity. Qed.

(** ** Beyond the claims: calls against a remote side that may refuse *)

Section Beyond.

Context {T : Type} {transport : Transport T}.
Variable disk : Path -> entry.

Lemma refusal_accepts (t : T) (cs : list call) :
  accepts t cs = match refusal t cs with None => true | Some _ => false end.
Proof.
  revert t. induction cs as [|c cs IH]; intros t; simpl; [reflexivity|].
  destruct (perform c t) as [[cls|[]] t']; [reflexivity | apply IH].
Qed.

Lemma attempted_accepted (t : T) (cs : list call) :
  accepts t cs = true -> attempted t cs = cs.
Proof.
  revert t. induction cs as [|c cs IH]; intros t; simpl; [reflexivity|].
  destruct (perform c t) as [[cls|[]] t']; [discriminate|].
  intros H. now rewrite (IH _ H).
Qed.

Lemma attempted_app (t : T) (a b : list call) :
  attempted t (a ++ b)
  = if accepts t a then a ++ attempted (after t a) b else attempted t a.
Proof.
  revert t. induction a as [|c a IH]; intros t; simpl; [reflexivity|].
  destruct (perform c t) as [[cls|[]] t'] eqn:E; simpl; [reflexivity|].
  rewrite IH. now destruct (accepts t' a).
Qed.

Lemma refusal_app (t : T) (a b : list call) :
  refusal t (a ++ b)
  = match refusal t a with
    | Some cls => Some cls
    | None => refusal (after t a) b
    end.
Proof.
  revert t. induction a as [|c a IH]; intros t; simpl; [reflexivity|].
  destruct (perform c t) as [[cls|[]] t'] eqn:E; simpl; [reflexivity|].
  apply IH.
Qed.

Lemma performs_ret : performs (@ret T unit tt) [].
Proof.
  intros w _. simpl. now rewrite app_nil_r.
Qed.

Lemma performs_bind (a : M T unit) (k : unit -> M T unit)
  (cs1 cs2 : list call) :
  performs a cs1 -> (forall u, performs (k u) cs2) ->
  performs (bind a k) (cs1 ++ cs2).
Proof.
  intros Ha Hk w Hs. destruct (Ha w Hs) as (Hr & Hc & Ht & Hself).
  unfold bind. rewrite refusal_app, attempted_app, refusal_accepts.
  destruct (a w) as [[e|u] wa]; simpl in *.
  - destruct (refusal (remote w) cs1) as [cls|]; [|discriminate Hr].
    now repeat split.
  - destruct (refusal (remote w) cs1) as [cls|] eqn:E; [discriminate Hr|].
    assert (Hacc : accepts (remote w) cs1 = true)
      by (now rewrite refusal_accepts, E).
    rewrite (attempted_accepted _ _ Hacc) in Hc, Ht.
    assert (Hs' : ssh_client (self wa) = true) by (now rewrite Hself).
    destruct (Hk u wa Hs') as (Hr' & Hc' & Ht' & Hself').
    rewrite Ht in Hr', Hc', Ht'.
    repeat split.
    + exact Hr'.
    + now rewrite Hc', Hc, app_assoc.
    + now rewrite Ht', after_app.
    + congruence.
Qed.

Lemma performs_invoke (c : call) : performs (invoke c (perform c)) [c].
Proof.
  intros w _. rewrite invoke_run. simpl.
  destruct (perform c (remote w)) as [[cls|[]] t']; now repeat split.
Qed.

Lemma performs__ssh_client : performs (@_ssh_client T) [].
Proof.
  intros w Hs. rewrite (_ssh_client_set w Hs). simpl.
  now rewrite app_nil_r.
Qed.

Lemma performs_execute (command : list string) (as_root pty : bool) :
  performs (execute command as_root pty)
           [ExecCommand (invocation as_root command) pty].
Proof.
  intros w Hs. rewrite (execute_run _ _ _ _ Hs). cbv zeta. simpl.
  destruct (ssh_exec_command _ _ (remote w)) as [[cls|[out err]] t'];
    now repeat split.
Qed.

Lemma performs_close : performs (@close T _) [Close].
Proof.
  intros w Hs. rewrite (close_run w Hs). simpl.
  destruct (ssh_close (remote w)) as [[cls|[]] t']; now repeat split.
Qed.

Lemma performs_open_sftp :
  performs (bind _ssh_client (fun _ => invoke OpenSftp ssh_open_sftp))
           [OpenSftp].
Proof.
  apply (performs_bind _ _ [] [OpenSftp] performs__ssh_client).
  intros _. apply (performs_invoke OpenSftp).
Qed.

Lemma performs_copy_file (local_file remote_destination : Path) :
  performs (copy_file local_file remote_destination)
    [OpenSftp;
     Put (as_posix local_file)
         (as_posix (joinpath remote_destination [parse (name local_file)]))].
Proof.
  unfold copy_file.
  apply (performs_bind _ _ [] [OpenSftp; Put _ _] performs__ssh_client).
  intros _.
  apply (performs_bind _ _ [OpenSftp] [Put _ _] (performs_invoke OpenSftp)).
  intros _. apply (performs_invoke (Put _ _)).
Qed.

(** The recursive call of [copy_folder] on a directory: [local_folder] is
    [base/pre/n], the remote destination is [destination/pre]. *)
Lemma performs_copy_folder (base destination : Path) (node : entry) :
  forall (pre : list string) (n : string),
    is_dir node = true ->
    component n = true ->
    well_named node = true ->
    performs
      (copy_folder node (extend base (pre ++ [n])) (extend destination pre)
                   (Some tt))
      (mirror base destination (pre ++ [n]) node).
Proof.
  induction node as [| | |children IH] using entry_induction;
    intros pre n Hdir Hn Hwn; try discriminate Hdir. clear Hdir.
  rewrite copy_folder_eq, mirror_Dir.
  apply (performs_bind _ _ [] (Mkdir _ :: _) performs_ret). intros u.
  cbv zeta. rewrite name_extend, (joinpath_one _ _ _ Hn).
  set (rel := pre ++ [n]).
  assert (Hname : name (extend base rel) = n) by apply name_extend.
  assert (Hj1 : joinpath (extend destination pre) [parse n]
                = extend destination rel) by now apply joinpath_one.
  apply (performs_bind _ _ [Mkdir _] _ (performs_invoke (Mkdir _))).
  intros _. simpl in Hwn.
  induction IH as [|[m c] rest Hc _ IHrest]; [apply performs_ret|].
  simpl in Hwn. apply andb_true_iff in Hwn as [Hm Hrest].
  apply andb_true_iff in Hm as [Hm Hwc]. simpl in Hm, Hwc, Hc.
  simpl flat_map.
  change (copy_children (extend base rel) (extend destination pre) u
            ((m, c) :: rest))
    with (bind
            match c with
            | File =>
                let dst :=
                  joinpath (extend destination pre)
                    [parse (name (extend base rel));
                     parse (name (child (extend base rel) m))] in
                invoke (Put (as_posix (child (extend base rel) m))
                            (as_posix dst))
                       (sftp_put (as_posix (child (extend base rel) m))
                                 (as_posix dst))
            | Dir _ =>
                copy_folder c (child (extend base rel) m)
                  (joinpath (extend destination pre)
                     [parse (name (extend base rel))])
                  (Some u)
            | _ => ret tt
            end
            (fun _ => copy_children (extend base rel)
                        (extend destination pre) u rest)).
  rewrite !Hname, name_child, child_extend, Hj1.
  rewrite (joinpath_two _ _ _ _ Hn Hm
           : _ = extend destination (rel ++ [m])).
  apply performs_bind; [|intros _; now apply IHrest].
  destruct c as [|gc| |].
  - apply (performs_invoke (Put _ _)).
  - destruct u. now apply Hc.
  - apply performs_ret.
  - apply performs_ret.
Qed.

Lemma performs_copy_folder_top (D : Path) (children : list (string * entry))
  (R : Path) :
  component (name D) = true ->
  well_named (Dir children) = true ->
  performs (copy_folder (Dir children) D R None)
           (OpenSftp :: mirror (parent D) R [name D] (Dir children)).
Proof.
  intros Hn Hwn. rewrite copy_folder_None.
  apply (performs_bind _ _ [OpenSftp] _ performs_open_sftp). intros [].
  pose proof (performs_copy_folder (parent D) R (Dir children) [] (name D)
                eq_refl Hn Hwn) as H.
  simpl app in H.
  now rewrite (parent_name D (component_nonempty _ Hn)), extend_nil in H.
Qed.

(** A session around a body that performs [cs]. *)
Lemma session_performs P (this : RemotePython) (body : M T unit)
  (cs : list call) (w : world T) :
  appends P body -> performs body cs ->
  let res := open_ssh_client this body w in
  let opening :=
    Connect (rp_server this) (rp_user this) (rp_password this) in
  match ssh_connect (rp_server this) (rp_user this) (rp_password this)
                    (remote w) with
  | (inl _, _) => calls (snd res) = calls w ++ [opening]
  | (inr _, t1) =>
      calls (snd res) = calls w ++ opening :: attempted t1 cs ++ [Close] /\
      fst res = scope_result (after t1 (attempted t1 cs))
                             (result_of (refusal t1 cs))
  end.
Proof.
  intros Hb Hp. cbv zeta. rewrite (open_ssh_client_run P this body w Hb).
  destruct (ssh_connect _ _ _ (remote w)) as [[cls|[]] t1]; [reflexivity|].
  cbv zeta.
  destruct (Hp (opened this t1 w) eq_refl) as (Hr & Hc & Ht & _).
  simpl in Hc, Ht |- *. unfold scope_result. rewrite Hc, Ht, Hr.
  split; [|reflexivity]. now rewrite <- !app_assoc.
Qed.

Lemma invocation_python (as_root : bool) (p : string) :
  invocation as_root ["python3"; p]
  = (elevation as_root ++ "python3 " ++ p)%string.
Proof. destruct as_root; reflexivity. Qed.

Lemma performs_project_body (project file R : Path)
  (children : list (string * entry)) (as_root : bool) :
  component (name project) = true ->
  well_named (Dir children) = true ->
  performs
    (bind (execute [("rm -rf " ++ as_posix (extend R [name project]))%string]
                   as_root false)
       (fun _ =>
          bind (copy_folder (Dir children) project R None)
            (fun _ =>
               execute
                 ["python3";
                  as_posix (joinpath (extend R [name project]) [file])]
                 as_root true)))
    (ExecCommand (elevation as_root ++ "rm -rf "
                  ++ as_posix (extend R [name project])) false
     :: (OpenSftp :: mirror (parent project) R [name project] (Dir children))
     ++ [ExecCommand (elevation as_root ++ "python3 "
                      ++ as_posix (truediv (extend R [name project]) file))
                     true]).
Proof.
  intros Hn Hwn.
  apply (performs_bind _ _ [ExecCommand _ false] _).
  { rewrite <- invocation_one. apply performs_execute. }
  intros _. apply performs_bind.
  { now apply performs_copy_folder_top. }
  intros _.
  rewrite <- invocation_python. apply performs_execute.
Qed.

Lemma performs_file_body (local_file R : Path) (as_root : bool) :
  performs
    (bind (execute [("rm -f "
                     ++ as_posix (joinpath R [parse (name local_file)]))%string]
                   false false)
       (fun _ =>
          bind (copy_file local_file R)
            (fun _ =>
               execute
                 ["python3"; as_posix (joinpath R [parse (name local_file)])]
                 as_root true)))
    [ExecCommand ("rm -f " ++ as_posix (joinpath R [parse (name local_file)]))
                 false;
     OpenSftp;
     Put (as_posix local_file)
         (as_posix (joinpath R [parse (name local_file)]));
     ExecCommand (elevation as_root ++ "python3 "
                  ++ as_posix (joinpath R [parse (name local_file)])) true].
Proof.
  apply (performs_bind _ _ [ExecCommand _ false] _).
  { pose proof (performs_execute
                  [("rm -f "
                    ++ as_posix (joinpath R [parse (name local_file)]))%string]
                  false false) as H.
    rewrite invocation_one in H. exact H. }
  intros _. apply (performs_bind _ _ [OpenSftp; Put _ _] _).
  { apply performs_copy_file. }
  intros _.
  rewrite <- invocation_python. apply performs_execute.
Qed.

Lemma attempted_prefix (t : T) (cs : list call) :
  exists rest, cs = attempted t cs ++ rest.
Proof.
  revert t. induction cs as [|c cs IH]; intros t; [now exists []|].
  simpl. destruct (perform c t) as [[cls|[]] t'].
  - now exists cs.
  - destruct (IH t') as [rest Hrest]. exists rest. now rewrite <- Hrest.
Qed.

Lemma truediv_nameless (R project : Path) :
  parts project = [] -> truediv R (parse (name project)) = R.
Proof.
  intros H. unfold name. rewrite H. destruct R as [r ps].
  unfold truediv, parse. simpl. now rewrite app_nil_r.
Qed.

Lemma truediv_anchored (p q : Path) : root q <> "" -> truediv p q = q.
Proof.
  intros H. unfold truediv. apply String.eqb_neq in H. now rewrite H.
Qed.

Lemma project_session (this : RemotePython) (project file R : Path)
  (children : list (string * entry)) (as_root : bool) (t : T) :
  disk project = Dir children ->
  component (name project) = true ->
  well_named (Dir children) = true ->
  let folder := extend R [name project] in
  let opening :=
    Connect (rp_server this) (rp_user this) (rp_password this) in
  let steps :=
    ExecCommand (elevation as_root ++ "rm -rf " ++ as_posix folder) false
    :: (OpenSftp :: mirror (parent project) R [name project] (Dir children))
    ++ [ExecCommand (elevation as_root ++ "python3 "
                     ++ as_posix (truediv folder file)) true] in
  let res := execute_python_project disk this project file R as_root
                                    (boot t) in
  match ssh_connect (rp_server this) (rp_user this) (rp_password this) t with
  | (inl _, _) => calls (snd res) = [opening]
  | (inr _, t1) =>
      calls (snd res) = opening :: attempted t1 steps ++ [Close] /\
      fst res = scope_result (after t1 (attempted t1 steps))
                             (result_of (refusal t1 steps))
  end.
Proof.
  intros Hd Hn Hwn. cbv zeta. unfold execute_python_project. cbv zeta.
  rewrite Hd, (truediv_component _ _ Hn).
  pose proof (appends_project_body disk project file R as_root
                (extend R [name project])) as Ha.
  rewrite Hd in Ha.
  exact (session_performs _ this _ _ (boot t) Ha
           (performs_project_body project file R children as_root Hn Hwn)).
Qed.

Lemma attempted_one (t : T) (c : call) : attempted t [c] = [c].
Proof. simpl. now destruct (perform c t) as [[cls|[]] t']. Qed.

Lemma refusal_accepted (t : T) (cs : list call) :
  accepts t cs = true -> refusal t cs = None.
Proof.
  rewrite refusal_accepts. now destruct (refusal t cs).
Qed.

(** The first step of [execute_python_project] once the session is open. *)
Lemma project_begins (this : RemotePython) (project file R : Path)
  (as_root : bool) (t : T) :
  let folder := truediv R (parse (name project)) in
  let opening :=
    Connect (rp_server this) (rp_user this) (rp_password this) in
  let removal :=
    ExecCommand (elevation as_root ++ "rm -rf " ++ as_posix folder) false in
  let res := execute_python_project disk this project file R as_root
                                    (boot t) in
  match ssh_connect (rp_server this) (rp_user this) (rp_password this) t with
  | (inl _, _) => calls (snd res) = [opening]
  | (inr _, _) => exists rest, calls (snd res) = opening :: removal :: rest
  end.
Proof.
  cbv zeta. unfold execute_python_project. cbv zeta.
  rewrite (open_ssh_client_run _ this _ (boot t)
             (appends_project_body disk project file R as_root
                (truediv R (parse (name project))))).
  change (remote (boot t)) with t.
  destruct (ssh_connect _ _ _ t) as [[cls|[]] t1]; [reflexivity|].
  cbv zeta. set (w1 := opened this t1 (boot t)).
  destruct (performs_execute
              [("rm -rf "
                ++ as_posix (truediv R (parse (name project))))%string]
              as_root false w1 eq_refl) as (_ & Hc & _ & _).
  rewrite attempted_one, invocation_one in Hc.
  rewrite steps_run.
  destruct (execute _ as_root false w1) as [[e|[]] wa]; simpl in Hc;
    cbn [snd fst calls closed].
  - exists [Close]. now rewrite Hc.
  - match goal with
    | |- context [match copy_folder ?n ?l ?r None wa with _ => _ end] =>
        destruct (appends_bind (fun _ => true)
                    (copy_folder n l r None)
                    (fun _ => execute
                                ["python3";
                                 as_posix (joinpath
                                             (truediv R (parse (name project)))
                                             [file])]
                                as_root true)
                    (appends_weaken _ _ _ (fun _ _ => eq_refl)
                       (appends_copy_folder n l r None))
                    (fun _ => appends_weaken _ _ _ (fun _ _ => eq_refl)
                                (appends_execute _ _ _)) wa)
          as (_ & _ & _ & cs & Hcs & _)
    end.
    unfold bind in Hcs. rewrite Hcs, Hc. exists (cs ++ [Close]).
    reflexivity.
Qed.

(** [copy_folder] on a local path that cannot be listed. *)
Lemma copy_folder_no_listing (node : entry) (D R : Path)
  (w : world T) :
  is_dir node = false ->
  ssh_client (self w) = true ->
  accepts (remote w)
    [OpenSftp; Mkdir (as_posix (joinpath R [parse (name D)]))] = true ->
  copy_folder node D R None w
  = (inl (Builtin match node with
                  | Missing => FileNotFoundError
                  | _ => NotADirectoryError
                  end),
     advance
       (after (remote w)
          [OpenSftp; Mkdir (as_posix (joinpath R [parse (name D)]))])
       [OpenSftp; Mkdir (as_posix (joinpath R [parse (name D)]))] [] w).
Proof.
  intros Hd Hs Hacc.
  change [OpenSftp; Mkdir ?p] with ([OpenSftp] ++ [Mkdir p]) in *.
  rewrite accepts_app in Hacc. apply andb_true_iff in Hacc as [Ho Hm].
  rewrite copy_folder_eq. unfold bind at 1 2.
  rewrite (_ssh_client_set w Hs).
  change ssh_open_sftp with (perform OpenSftp).
  rewrite (invoke_accepted _ w Ho). cbv zeta. unfold bind.
  change (sftp_mkdir ?p) with (perform (Mkdir p)).
  set (w1 := advance _ [OpenSftp] [] w) in *.
  change (after (remote w) [OpenSftp]) with (remote w1) in Hm.
  rewrite (invoke_accepted _ w1 Hm), after_app.
  unfold w1 at 2. rewrite advance_advance.
  destruct node as [|children| |]; try reflexivity. discriminate Hd.
Qed.

(** ** Two claims stated with these calls *)

Lemma mirror_sftp (base destination : Path) (e : entry) :
  forall rel, forallb is_sftp (mirror base destination rel e) = true.
Proof.
  induction e as [| | |children IH] using entry_induction; intros rel;
    try reflexivity.
  rewrite mirror_Dir. simpl.
  induction IH as [|[n c] rest Hc _ IHrest]; simpl; [reflexivity|].
  now rewrite forallb_app, Hc, IHrest.
Qed.

Lemma attempted_forallb (P : call -> bool) (t : T) (cs : list call) :
  forallb P cs = true -> forallb P (attempted t cs) = true.
Proof.
  revert t. induction cs as [|c cs IH]; intros t; simpl; [reflexivity|].
  intros H. apply andb_true_iff in H as [Hc Hcs]. rewrite Hc. simpl.
  destruct (perform c t) as [[cls|[]] t']; [reflexivity | now apply IH].
Qed.

Lemma scope_result_raised (t : T) (body : exn + unit) :
  raised body = true -> raised (scope_result t body) = true.
Proof.
  unfold scope_result. now destruct (fst (ssh_close t)).
Qed.

Lemma refusal_refused (t : T) (cs : list call) :
  accepts t cs = false -> raised (result_of (refusal t cs)) = true.
Proof.
  rewrite refusal_accepts. now destruct (refusal t cs).
Qed.

(** C3. In [execute_python_project] on a well-formed project directory the
    three steps run in sequence: after [Connect], the removal command
    "rm -rf R/D.name" (elevated with the workflow, no terminal), then the
    transfer of the directory -- the opening of the file channel and the
    [Mkdir] and [Put] of every node --, then "python3 R/D.name/file" with a
    terminal, then [Close]. When the removal raises, nothing of the transfer
    and no interpreter command is issued; when the transfer raises, it
    stops at the refused call and no interpreter command is issued; in both
    cases the workflow raises. *)
Theorem execute_project_in_sequence (this : RemotePython)
  (project file remote_destination : Path)
  (children : list (string * entry)) (as_root : bool) (t : T) :
  disk project = Dir children ->
  component (name project) = true ->
  well_named (Dir children) = true ->
  let folder := extend remote_destination [name project] in
  let opening :=
    Connect (rp_server this) (rp_user this) (rp_password this) in
  let removal :=
    ExecCommand (elevation as_root ++ "rm -rf " ++ as_posix folder) false in
  let transfer :=
    OpenSftp :: mirror (parent project) remote_destination [name project]
                       (Dir children) in
  let running :=
    ExecCommand (elevation as_root ++ "python3 "
                 ++ as_posix (truediv folder file)) true in
  let res := execute_python_project disk this project file
               remote_destination as_root (boot t) in
  match ssh_connect (rp_server this) (rp_user this) (rp_password this) t with
  | (inl _, _) => calls (snd res) = [opening]
  | (inr _, t1) =>
      if accepts t1 [removal] then
        if accepts (after t1 [removal]) transfer then
          calls (snd res) = opening :: removal :: transfer ++ [running; Close]
        else
          calls (snd res)
          = opening :: removal
            :: attempted (after t1 [removal]) transfer ++ [Close] /\
          forallb is_sftp (attempted (after t1 [removal]) transfer) = true /\
          raised (fst res) = true
      else
        calls (snd res) = [opening; removal; Close] /\
        raised (fst res) = true
  end.
Proof.
  intros Hd Hn Hwn. cbv zeta.
  pose proof (project_session this project file remote_destination children
                as_root t Hd Hn Hwn) as H.
  cbv zeta in H.
  destruct (ssh_connect _ _ _ t) as [[cls|[]] t1]; [exact H|].
  destruct H as [Hc Hr]. rewrite Hc, Hr. clear Hc Hr.
  set (removal := ExecCommand _ false).
  set (transfer := OpenSftp :: mirror _ _ _ _).
  set (running := ExecCommand _ true).
  change (removal :: transfer ++ [running])
    with ([removal] ++ transfer ++ [running]).
  rewrite refusal_app, !attempted_app.
  destruct (accepts t1 [removal]) eqn:Ea.
  - rewrite (refusal_accepted _ _ Ea), refusal_app.
    destruct (accepts (after t1 [removal]) transfer) eqn:Eb.
    + rewrite attempted_one. simpl. now rewrite <- !app_assoc.
    + split; [reflexivity|]. split.
      * apply attempted_forallb.
        exact (mirror_sftp (parent project) remote_destination (Dir children)
                 [name project]).
      * apply scope_result_raised.
        pose proof (refusal_refused _ _ Eb) as Hx.
        now destruct (refusal (after t1 [removal]) transfer).
  - rewrite attempted_one. split; [reflexivity|].
    apply scope_result_raised.
    pose proof (refusal_refused _ _ Ea) as Hx.
    now destruct (refusal t1 [removal]).
Qed.





(** ** Beyond the claims: the properties *)

(** X1. [connect] issues one [Connect] with the credentials the client was
    constructed with and attaches the handle exactly when the transport
    accepts it; a refused connection raises the transport's exception and
    leaves the client without a handle. *)
Theorem connect_attaches (s u p : string) (w : world T) :
  let res := connect (snd (SSHClient_init s u p w)) in
  calls (snd res) = calls w ++ [Connect s u p] /\
  fst res = result_of (refusal (remote w) [Connect s u p]) /\
  ssh_client (self (snd res)) = accepts (remote w) [Connect s u p] /\
  (server (self (snd res)), username (self (snd res)),
   password (self (snd res))) = (s, u, p).
Proof.
  cbv zeta. unfold connect, bind, get_self, set_self, invoke. simpl.
  destruct (ssh_connect s u p (remote w)) as [[cls|[]] t1]; now repeat split.
Qed.

(** X2. [close] keeps no record of having run: called twice on an attached
    client it hands the transport a second [Close] (unless the first one
    was refused), raises what the transport raises, and the handle stays
    attached throughout. *)
Theorem close_twice_delegates (w : world T) :
  ssh_client (self w) = true ->
  let res := bind close (fun _ => close) w in
  fst res = result_of (refusal (remote w) [Close; Close]) /\
  calls (snd res) = calls w ++ attempted (remote w) [Close; Close] /\
  ssh_client (self (snd res)) = true.
Proof.
  intros Hs. cbv zeta.
  destruct (performs_bind close (fun _ => close) [Close] [Close]
              performs_close (fun _ => performs_close) w Hs)
    as (Hr & Hc & _ & Hself).
  repeat split; [exact Hr | exact Hc | now rewrite Hself].
Qed.

(** X3. When the transport refuses to start the command, [execute] raises its
    exception and prints nothing, not even the line of the error stream. *)
Theorem execute_refused (command : list string) (as_root pty : bool)
  (w : world T) (cls : string) (t' : T) :
  ssh_client (self w) = true ->
  ssh_exec_command (invocation as_root command) pty (remote w)
  = (inl cls, t') ->
  execute command as_root pty w
  = (inl (TransportError cls),
     advance t' [ExecCommand (invocation as_root command) pty] [] w).
Proof.
  intros Hs He. rewrite (execute_run _ _ _ _ Hs). cbv zeta. now rewrite He.
Qed.

(** X4. [print_continuously] changes the [get_pty] argument and nothing else:
    given the same streams, [execute] prints the same text in both modes,
    the lines of standard output one by one and then the error stream. *)
Theorem execute_prints_alike (command : list string) (as_root : bool)
  (w : world T) (out err : list string) (t1 t2 : T) :
  ssh_client (self w) = true ->
  ssh_exec_command (invocation as_root command) true (remote w)
  = (inr (out, err), t1) ->
  ssh_exec_command (invocation as_root command) false (remote w)
  = (inr (out, err), t2) ->
  console (snd (execute command as_root true w))
  = console w ++ shown out ++ [(String.concat "" err ++ newline)%string] /\
  console (snd (execute command as_root false w))
  = console (snd (execute command as_root true w)) /\
  calls (snd (execute command as_root true w))
  = calls w ++ [ExecCommand (invocation as_root command) true] /\
  calls (snd (execute command as_root false w))
  = calls w ++ [ExecCommand (invocation as_root command) false].
Proof.
  intros Hs H1 H2. rewrite !(execute_run _ _ _ _ Hs). cbv zeta.
  rewrite H1, H2. now repeat split.
Qed.

(** X5. Mirroring a well-formed directory against a remote side that may
    refuse: the calls issued are those of the mirror, in order, up to and
    including the first one refused; the exception raised is that call's;
    nothing is issued after it and nothing is undone. *)
Theorem copy_folder_stops_at_refusal (D : Path)
  (children : list (string * entry)) (R : Path) (w : world T) :
  component (name D) = true ->
  well_named (Dir children) = true ->
  ssh_client (self w) = true ->
  let cs := OpenSftp :: mirror (parent D) R [name D] (Dir children) in
  let res := copy_folder (Dir children) D R None w in
  fst res = result_of (refusal (remote w) cs) /\
  calls (snd res) = calls w ++ attempted (remote w) cs /\
  remote (snd res) = after (remote w) (attempted (remote w) cs) /\
  exists rest, cs = attempted (remote w) cs ++ rest.
Proof.
  intros Hn Hwn Hs. cbv zeta.
  destruct (performs_copy_folder_top D children R Hn Hwn w Hs)
    as (Hr & Hc & Ht & _).
  repeat split; try assumption. apply attempted_prefix.
Qed.

(** X6. [copy_folder] creates the remote directory before it looks at the local
    path: on a local path that is not a directory the [Mkdir] has been
    issued when [iterdir] raises [NotADirectoryError] ([FileNotFoundError]
    when nothing is there), and no file is copied. *)
Theorem copy_folder_not_a_directory (node : entry) (D R : Path)
  (w : world T) :
  is_dir node = false ->
  ssh_client (self w) = true ->
  accepts (remote w)
    [OpenSftp; Mkdir (as_posix (joinpath R [parse (name D)]))] = true ->
  copy_folder node D R None w
  = (inl (Builtin match node with
                  | Missing => FileNotFoundError
                  | _ => NotADirectoryError
                  end),
     advance
       (after (remote w)
          [OpenSftp; Mkdir (as_posix (joinpath R [parse (name D)]))])
       [OpenSftp; Mkdir (as_posix (joinpath R [parse (name D)]))] [] w).
Proof.
  intros Hd Hs Hacc.
  change [OpenSftp; Mkdir ?p] with ([OpenSftp] ++ [Mkdir p]) in *.
  rewrite accepts_app in Hacc. apply andb_true_iff in Hacc as [Ho Hm].
  rewrite copy_folder_eq. unfold bind at 1 2.
  rewrite (_ssh_client_set w Hs).
  change ssh_open_sftp with (perform OpenSftp).
  rewrite (invoke_accepted _ w Ho). cbv zeta. unfold bind.
  change (sftp_mkdir ?p) with (perform (Mkdir p)).
  set (w1 := advance _ [OpenSftp] [] w) in *.
  change (after (remote w) [OpenSftp]) with (remote w1) in Hm.
  rewrite (invoke_accepted _ w1 Hm), after_app.
  unfold w1 at 2. rewrite advance_advance.
  destruct node as [|children| |]; try reflexivity. discriminate Hd.
Qed.

(** X7. [copy_file] opens a file channel of its own and issues one [Put] from
    the local path to [remote_destination/name]; it creates no directory and
    does not look at the local disk. A refusal stops it at the refused
    call. *)
Theorem copy_file_calls (local_file remote_destination : Path)
  (w : world T) :
  ssh_client (self w) = true ->
  let cs :=
    [OpenSftp;
     Put (as_posix local_file)
         (as_posix (joinpath remote_destination
                             [parse (name local_file)]))] in
  let res := copy_file local_file remote_destination w in
  fst res = result_of (refusal (remote w) cs) /\
  calls (snd res) = calls w ++ attempted (remote w) cs /\
  remote (snd res) = after (remote w) (attempted (remote w) cs).
Proof.
  intros Hs. cbv zeta.
  destruct (performs_copy_file local_file remote_destination w Hs)
    as (Hr & Hc & Ht & _).
  now repeat split.
Qed.

(** X8. The environment workflow issues, between [Connect] and [Close], the one
    command "python3 -m venv path/env_name", never elevated and without a
    terminal, and no file-channel call; it raises the exception of [close]
    when that is refused, else that of the command, else returns. *)
Theorem create_python_environment_trace (this : RemotePython) (path : Path)
  (env_name : string) (t : T) :
  let opening :=
    Connect (rp_server this) (rp_user this) (rp_password this) in
  let command :=
    ExecCommand ("python3 -m venv "
                 ++ as_posix (joinpath path [parse env_name])) false in
  let res := create_python_environment this path env_name (boot t) in
  match ssh_connect (rp_server this) (rp_user this) (rp_password this) t with
  | (inl _, _) => calls (snd res) = [opening]
  | (inr _, t1) =>
      calls (snd res) = [opening; command; Close] /\
      fst res = scope_result (snd (perform command t1))
                             (result_of (refusal t1 [command]))
  end.
Proof.
  cbv zeta. unfold create_python_environment.
  pose proof (session_performs is_exec this _ _ (boot t)
                (appends_execute
                   ["python3"; "-m"; "venv";
                    as_posix (joinpath path [parse env_name])] false false)
                (performs_execute
                   ["python3"; "-m"; "venv";
                    as_posix (joinpath path [parse env_name])] false false))
    as H.
  cbv zeta in H. change (remote (boot t)) with t in H.
  destruct (ssh_connect _ _ _ t) as [[cls|[]] t1]; [exact H|].
  rewrite attempted_one in H. exact H.
Qed.

(** X9. The project workflow on a well-formed project directory, whatever the
    remote side refuses: after [Connect] the calls are the removal command,
    the calls of the mirror and the interpreter command, in this order and
    up to the first one refused, then [Close]; it raises the exception of
    [close] when that is refused, else that of the refused call, else
    returns. *)
Theorem execute_python_project_trace (this : RemotePython)
  (project file R : Path) (children : list (string * entry))
  (as_root : bool) (t : T) :
  disk project = Dir children ->
  component (name project) = true ->
  well_named (Dir children) = true ->
  let folder := extend R [name project] in
  let opening :=
    Connect (rp_server this) (rp_user this) (rp_password this) in
  let steps :=
    ExecCommand (elevation as_root ++ "rm -rf " ++ as_posix folder) false
    :: (OpenSftp :: mirror (parent project) R [name project] (Dir children))
    ++ [ExecCommand (elevation as_root ++ "python3 "
                     ++ as_posix (truediv folder file)) true] in
  let res := execute_python_project disk this project file R as_root
                                    (boot t) in
  match ssh_connect (rp_server this) (rp_user this) (rp_password this) t with
  | (inl _, _) => calls (snd res) = [opening]
  | (inr _, t1) =>
      calls (snd res) = opening :: attempted t1 steps ++ [Close] /\
      fst res = scope_result (after t1 (attempted t1 steps))
                             (result_of (refusal t1 steps))
  end.
Proof.
  intros Hd Hn Hwn. cbv zeta. unfold execute_python_project. cbv zeta.
  rewrite Hd, (truediv_component _ _ Hn).
  pose proof (appends_project_body disk project file R as_root
                (extend R [name project])) as Ha.
  rewrite Hd in Ha.
  exact (session_performs _ this _ _ (boot t) Ha
           (performs_project_body project file R children as_root Hn Hwn)).
Qed.

(** X10. The project workflow removes the remote project directory before it
    looks at the local one: when the local project path is not a directory,
    the removal command has run and the remote directory has been created
    anew, empty, when the workflow raises [NotADirectoryError]
    ([FileNotFoundError] when nothing is there); the interpreter is not
    run. *)
Theorem execute_python_project_not_a_directory (this : RemotePython)
  (project file R : Path) (as_root : bool) (t t1 : T) :
  is_dir (disk project) = false ->
  ssh_connect (rp_server this) (rp_user this) (rp_password this) t
  = (inr tt, t1) ->
  accepts t1
    [ExecCommand (elevation as_root ++ "rm -rf "
                  ++ as_posix (joinpath R [parse (name project)])) false;
     OpenSftp;
     Mkdir (as_posix (joinpath R [parse (name project)]))] = true ->
  let steps :=
    [ExecCommand (elevation as_root ++ "rm -rf "
                  ++ as_posix (joinpath R [parse (name project)])) false;
     OpenSftp;
     Mkdir (as_posix (joinpath R [parse (name project)]))] in
  let res := execute_python_project disk this project file R as_root
                                    (boot t) in
  calls (snd res)
  = Connect (rp_server this) (rp_user this) (rp_password this)
    :: steps ++ [Close] /\
  fst res
  = scope_result (after t1 steps)
      (inl (Builtin match disk project with
                    | Missing => FileNotFoundError
                    | _ => NotADirectoryError
                    end)).
Proof.
  intros Hd Hcon Hacc. cbv zeta. unfold execute_python_project. cbv zeta.
  rewrite (open_ssh_client_run _ this _ (boot t)
             (appends_project_body disk project file R as_root
                (truediv R (parse (name project))))).
  change (remote (boot t)) with t. rewrite Hcon. cbv zeta.
  set (w1 := opened this t1 (boot t)).
  change (ExecCommand ?c false :: ?l) with ([ExecCommand c false] ++ l)
    in Hacc.
  rewrite accepts_app in Hacc. apply andb_true_iff in Hacc as [Hrm Hacc].
  destruct (performs_execute
              [("rm -rf "
                ++ as_posix (truediv R (parse (name project))))%string]
              as_root false w1 eq_refl) as (Hr & Hc & Ht & Hself).
  rewrite invocation_one in Hr, Hc, Ht.
  change (remote w1) with t1 in Hr, Hc, Ht.
  change (truediv R (parse (name project)))
    with (joinpath R [parse (name project)]) in Hr, Hc, Ht.
  rewrite (refusal_accepted _ _ Hrm) in Hr.
  rewrite (attempted_accepted _ _ Hrm) in Hc, Ht.
  rewrite steps_run.
  destruct (execute _ as_root false w1) as [[e|[]] wa];
    cbn [fst snd] in Hr, Hc, Ht, Hself; [discriminate Hr|].
  assert (Hs : ssh_client (self wa) = true) by (now rewrite Hself).
  rewrite <- Ht in Hacc.
  rewrite (copy_folder_no_listing (disk project) project R wa Hd Hs Hacc).
  unfold scope_result. simpl. rewrite Hc, Ht. split; reflexivity.
Qed.

(** X11. A project path without a final component ("." or "/") makes the removal
    command of the project workflow target the remote destination itself. *)
Theorem execute_python_project_nameless (this : RemotePython)
  (project file R : Path) (as_root : bool) (t : T) :
  parts project = [] ->
  let opening :=
    Connect (rp_server this) (rp_user this) (rp_password this) in
  let removal :=
    ExecCommand (elevation as_root ++ "rm -rf " ++ as_posix R) false in
  let res := execute_python_project disk this project file R as_root
                                    (boot t) in
  match ssh_connect (rp_server this) (rp_user this) (rp_password this) t with
  | (inl _, _) => calls (snd res) = [opening]
  | (inr _, _) => exists rest, calls (snd res) = opening :: removal :: rest
  end.
Proof.
  intros Hp. cbv zeta.
  pose proof (project_begins this project file R as_root t) as H.
  cbv zeta in H. now rewrite (truediv_nameless R project Hp) in H.
Qed.

(** X12. An anchored entry file replaces the deployed folder: when every call is
    accepted, the interpreter of the project workflow is run on the entry
    path as given, not on a path under the deployed project. *)
Theorem execute_python_project_anchored_entry (this : RemotePython)
  (project file R : Path) (children : list (string * entry))
  (as_root : bool) (t t1 : T) :
  disk project = Dir children ->
  component (name project) = true ->
  well_named (Dir children) = true ->
  root file <> "" ->
  ssh_connect (rp_server this) (rp_user this) (rp_password this) t
  = (inr tt, t1) ->
  accepts t1
    (ExecCommand (elevation as_root ++ "rm -rf "
                  ++ as_posix (extend R [name project])) false
     :: (OpenSftp :: mirror (parent project) R [name project] (Dir children))
     ++ [ExecCommand (elevation as_root ++ "python3 " ++ as_posix file)
                     true]) = true ->
  calls (snd (execute_python_project disk this project file R as_root
                                     (boot t)))
  = Connect (rp_server this) (rp_user this) (rp_password this)
    :: ExecCommand (elevation as_root ++ "rm -rf "
                    ++ as_posix (extend R [name project])) false
    :: (OpenSftp :: mirror (parent project) R [name project] (Dir children))
    ++ [ExecCommand (elevation as_root ++ "python3 " ++ as_posix file) true;
        Close].
Proof.
  intros Hd Hn Hwn Hf Hcon Hacc.
  pose proof (project_session this project file R children as_root t
                Hd Hn Hwn) as H.
  cbv zeta in H. rewrite Hcon, (truediv_anchored _ _ Hf) in H.
  destruct H as [Hc _]. rewrite Hc, (attempted_accepted _ _ Hacc).
  simpl. now rewrite <- !app_assoc.
Qed.

(** X13. The file workflow, whatever the remote side refuses: after [Connect]
    the calls are the removal of [R/name], the opening of a file channel,
    the copy of the local file to [R/name] and the interpreter command on
    [R/name], in this order and up to the first one refused, then [Close];
    no directory is created. When the local path is not a regular file
    nothing happens but the [AssertionError]. *)
Theorem execute_python_file_trace (this : RemotePython)
  (local_file R : Path) (as_root : bool) (t : T) :
  let p := as_posix (joinpath R [parse (name local_file)]) in
  let opening :=
    Connect (rp_server this) (rp_user this) (rp_password this) in
  let steps :=
    [ExecCommand ("rm -f " ++ p) false;
     OpenSftp;
     Put (as_posix local_file) p;
     ExecCommand (elevation as_root ++ "python3 " ++ p) true] in
  let res := execute_python_file disk this local_file R as_root (boot t) in
  if is_file (disk local_file) then
    match ssh_connect (rp_server this) (rp_user this) (rp_password this) t
    with
    | (inl _, _) => calls (snd res) = [opening]
    | (inr _, t1) =>
        calls (snd res) = opening :: attempted t1 steps ++ [Close] /\
        fst res = scope_result (after t1 (attempted t1 steps))
                               (result_of (refusal t1 steps))
    end
  else res = (inl (Builtin AssertionError), boot t).
Proof.
  cbv zeta. rewrite execute_python_file_run.
  destruct (is_file (disk local_file)); [|reflexivity]. cbv zeta.
  exact (session_performs _ this _ _
           (advance t [] [(as_posix R ++ newline)%string] (boot t))
           (appends_file_body local_file R as_root
              (as_posix (joinpath R [parse (name local_file)])))
           (performs_file_body local_file R as_root)).
Qed.

End Beyond.

(** ** The properties on the fake transport *)

Lemma close_twice_delegates_witness :
  let res := bind close (fun _ => close) (Demo.connected (Fake.quiet [])) in
  fst res = inr tt /\
  calls (snd res) = [Connect "host" "pi" "secret"; Close; Close] /\
  ssh_client (self (snd res)) = true.
Proof.
  exact (close_twice_delegates (Demo.connected (Fake.quiet [])) eq_refl).
Defined.

Lemma execute_refused_witness :
  execute ["ls"] false false (Demo.connected (Demo.faulty is_exec))
  = (inl (TransportError "SSHException"),
     advance (Fake.plug true (Demo.faulty is_exec))
             [ExecCommand "ls" false] []
             (Demo.connected (Demo.faulty is_exec))).
Proof.
  exact (execute_refused ["ls"] false false
           (Demo.connected (Demo.faulty is_exec)) "SSHException"
           (Fake.plug true (Demo.faulty is_exec)) eq_refl eq_refl).
Defined.

Lemma execute_prints_alike_witness :
  console (snd (execute ["make"] false true (Demo.connected Demo.chatty)))
  = ["building" ++ newline; "done" ++ newline; newline]%string /\
  console (snd (execute ["make"] false false (Demo.connected Demo.chatty)))
  = console (snd (execute ["make"] false true (Demo.connected Demo.chatty)))
  /\
  calls (snd (execute ["make"] false true (Demo.connected Demo.chatty)))
  = [Connect "host" "pi" "secret"; ExecCommand "make" true] /\
  calls (snd (execute ["make"] false false (Demo.connected Demo.chatty)))
  = [Connect "host" "pi" "secret"; ExecCommand "make" false].
Proof.
  exact (execute_prints_alike ["make"] false (Demo.connected Demo.chatty)
           (["building" ++ newline; "done" ++ newline]%string) []
           Demo.chatty Demo.chatty eq_refl eq_refl eq_refl).
Defined.

Lemma copy_folder_stops_at_refusal_witness :
  let res := copy_folder (Dir Demo.app) (parse "/local/App") (parse "/srv")
               None (Demo.connected (Demo.faulty Demo.creates_pkg)) in
  fst res = inl (TransportError "SSHException") /\
  calls (snd res)
  = [Connect "host" "pi" "secret";
     OpenSftp;
     Mkdir "/srv/App";
     Put "/local/App/run.py" "/srv/App/run.py";
     Mkdir "/srv/App/pkg"].
Proof.
  destruct (copy_folder_stops_at_refusal (parse "/local/App") Demo.app
              (parse "/srv") (Demo.connected (Demo.faulty Demo.creates_pkg))
              eq_refl eq_refl eq_refl) as (Hr & Hc & _ & _).
  split; [exact Hr | exact Hc].
Defined.

Lemma copy_folder_not_a_directory_witness :
  copy_folder File (parse "/local/task.py") (parse "/srv") None
              (Demo.connected (Fake.quiet []))
  = (inl (Builtin NotADirectoryError),
     advance (Fake.online ["/srv/task.py"])
             [OpenSftp; Mkdir "/srv/task.py"] []
             (Demo.connected (Fake.quiet []))).
Proof.
  exact (copy_folder_not_a_directory File (parse "/local/task.py")
           (parse "/srv") (Demo.connected (Fake.quiet []))
           eq_refl eq_refl eq_refl).
Defined.

Lemma copy_file_calls_witness :
  let res := copy_file (parse "/local/task.py") (parse "/srv")
               (Demo.connected (Fake.quiet [])) in
  fst res = inr tt /\
  calls (snd res)
  = [Connect "host" "pi" "secret";
     OpenSftp;
     Put "/local/task.py" "/srv/task.py"] /\
  remote (snd res) = Fake.online ["/srv/task.py"].
Proof.
  exact (copy_file_calls (parse "/local/task.py") (parse "/srv")
           (Demo.connected (Fake.quiet [])) eq_refl).
Defined.

Lemma execute_python_project_trace_witness :
  let res := execute_python_project Demo.disk Demo.pi (parse "/local/App")
               (parse "run.py") (parse "/srv") false
               (boot (Demo.faulty Demo.creates_pkg)) in
  calls (snd res)
  = [Connect "host" "pi" "secret";
     ExecCommand "rm -rf /srv/App" false;
     OpenSftp;
     Mkdir "/srv/App";
     Put "/local/App/run.py" "/srv/App/run.py";
     Mkdir "/srv/App/pkg";
     Close] /\
  fst res = inl (TransportError "SSHException").
Proof.
  exact (execute_python_project_trace Demo.disk Demo.pi (parse "/local/App")
           (parse "run.py") (parse "/srv") Demo.app false
           (Demo.faulty Demo.creates_pkg) eq_refl eq_refl eq_refl).
Defined.

Lemma execute_python_project_not_a_directory_witness :
  let res := execute_python_project Demo.disk Demo.pi
               (parse "/local/task.py") (parse "run.py") (parse "/srv") true
               (boot (Fake.quiet [])) in
  calls (snd res)
  = [Connect "host" "pi" "secret";
     ExecCommand "sudo -E rm -rf /srv/task.py" false;
     OpenSftp;
     Mkdir "/srv/task.py";
     Close] /\
  fst res = inl (Builtin NotADirectoryError).
Proof.
  exact (execute_python_project_not_a_directory Demo.disk Demo.pi
           (parse "/local/task.py") (parse "run.py") (parse "/srv") true
           (Fake.quiet []) (Fake.online []) eq_refl eq_refl eq_refl).
Defined.

Lemma execute_python_project_nameless_witness :
  exists rest,
    calls (snd (execute_python_project Demo.disk Demo.pi (parse ".")
                  (parse "run.py") (parse "/srv") false
                  (boot (Fake.quiet []))))
    = Connect "host" "pi" "secret" :: ExecCommand "rm -rf /srv" false :: rest.
Proof.
  exact (execute_python_project_nameless Demo.disk Demo.pi (parse ".")
           (parse "run.py") (parse "/srv") false (Fake.quiet []) eq_refl).
Defined.

Lemma execute_python_project_anchored_entry_witness :
  calls (snd (execute_python_project Demo.disk Demo.pi (parse "/local/App")
                (parse "/opt/tool.py") (parse "/srv") false
                (boot (Fake.quiet []))))
  = [Connect "host" "pi" "secret";
     ExecCommand "rm -rf /srv/App" false;
     OpenSftp;
     Mkdir "/srv/App";
     Put "/local/App/run.py" "/srv/App/run.py";
     Mkdir "/srv/App/pkg";
     Put "/local/App/pkg/a.py" "/srv/App/pkg/a.py";
     Mkdir "/srv/App/pkg/empty";
     ExecCommand "python3 /opt/tool.py" true;
     Close].
Proof.
  apply (execute_python_project_anchored_entry Demo.disk Demo.pi
           (parse "/local/App") (parse "/opt/tool.py") (parse "/srv")
           Demo.app false (Fake.quiet []) (Fake.online []));
    try reflexivity.
  discriminate.
Defined.

Lemma execute_project_in_sequence_witness :
  calls (snd (execute_python_project Demo.disk Demo.pi (parse "/local/App")
                (parse "run.py") (parse "/srv") true
                (boot (Fake.quiet []))))
  = [Connect "host" "pi" "secret";
     ExecCommand "sudo -E rm -rf /srv/App" false;
     OpenSftp;
     Mkdir "/srv/App";
     Put "/local/App/run.py" "/srv/App/run.py";
     Mkdir "/srv/App/pkg";
     Put "/local/App/pkg/a.py" "/srv/App/pkg/a.py";
     Mkdir "/srv/App/pkg/empty";
     ExecCommand "sudo -E python3 /srv/App/run.py" true;
     Close].
Proof.
  exact (execute_project_in_sequence Demo.disk Demo.pi (parse "/local/App")
           (parse "run.py") (parse "/srv") Demo.app true (Fake.quiet [])
           eq_refl eq_refl eq_refl).
Defined.

